(** * A retrieval-augmented chat agent over a Chroma store

    Shallow embedding of [rag_agent.py], [streamlit_app.py] and
    [view_chroma_data_full_export.py].

    Python values are modelled as follows: [str] as [string], [int] as [Z],
    a [dict] with string keys as [gmap string _], a [set] as [gset], a list
    as [list].  A call that may raise returns a [result]; code that talks to
    the outside world (logging, the store, the agent library, the Streamlit
    widgets) runs in the trace monad [M], which records every external call
    in program order. *)

From stdpp Require Import gmap strings list sorting pretty.
From Stdlib Require Import ZArith.

Open Scope string_scope.
Open Scope list_scope.
Open Scope Z_scope.

(** ** Python exceptions and fallible calls *)

Module Py.

(** Exception classes that occur in the code or in the error taxonomy. *)
Inductive exn : Type :=
| TypeError (msg : string)
| IndexError (msg : string)
| AttributeError (msg : string)
| StoreUnavailable (msg : string)
| EmbeddingFailure (msg : string)
| QueryFailure (msg : string)
| AgentUnavailable (msg : string)
| UsageLimitExceeded (msg : string).

(** [str(e)], as interpolated by an f-string. *)
Definition exn_str (e : exn) : string :=
  match e with
  | TypeError m | IndexError m | AttributeError m | StoreUnavailable m
  | EmbeddingFailure m | QueryFailure m | AgentUnavailable m
  | UsageLimitExceeded m => m
  end.

Inductive result (A : Type) : Type :=
| Ok (a : A)
| Raise (e : exn).
Arguments Ok {A} a.
Arguments Raise {A} e.

Definition is_Ok {A} (r : result A) : bool :=
  match r with Ok _ => true | Raise _ => false end.

(** [xs[0]] *)
Definition index0 {A} (xs : list A) : result A :=
  match xs with
  | x :: _ => Ok x
  | [] => Raise (IndexError "list index out of range")
  end.

End Py.
Export Py.

(** ** The Chroma data model, as the code reads it *)

(** A metadata dict of one stored chunk. *)
Abbreviation Metadata := (gmap string string).

(** [chromadb.PersistentClient]: the handle is identified by its directory. *)
Record PersistentClient : Type := { client_path : string }.

(** A collection handle. *)
Record Collection : Type := {
  col_client : PersistentClient;
  col_name : string;
  col_embedding_model : string;
}.

(** The dict returned by [collection.query]: every key may be absent, and each
    present value holds one inner list per query text. *)
Record QueryResults : Type := {
  qr_ids : option (list (list string));
  qr_documents : option (list (list string));
  qr_metadatas : option (list (list (option Metadata)));
}.

(** [query_results.get("documents", [[]])] and the like. *)
Definition get_or_default {A} (field : option (list (list A))) : list (list A) :=
  default [[]] field.

(** ** pydantic_ai message parts, as imported by the UI *)

Inductive MessagePart : Type :=
| SystemPromptPart (content : string)
| UserPromptPart (content : string)
| TextPart (content : string)
| ToolCallPart (tool_name : string) (args : string)
| ToolReturnPart (tool_name : string) (content : string)
| RetryPromptPart (content : string).

Inductive ModelMessage : Type :=
| ModelRequest (parts : list MessagePart)
| ModelResponse (parts : list MessagePart).

Definition parts (m : ModelMessage) : list MessagePart :=
  match m with ModelRequest ps | ModelResponse ps => ps end.

(** ** rag_agent.py *)

Module RagAgent.

(** [@dataclass class RAGDeps] *)
Record RAGDeps : Type := {
  chroma_client : PersistentClient;
  collection_name : string;
  embedding_model : string;
  n_results : Z;
}.

(** The generated [RAGDeps.__init__], called with keyword arguments: no
    field has a default, so an argument that is not passed ([None] here)
    raises [TypeError]. *)
Definition missing_fields (c : option PersistentClient) (n e : option string)
    (k : option Z) : list string :=
  (if c is Some _ then [] else ["chroma_client"])
  ++ (if n is Some _ then [] else ["collection_name"])
  ++ (if e is Some _ then [] else ["embedding_model"])
  ++ (if k is Some _ then [] else ["n_results"]).

Definition quoted (name : string) : string := "'" +:+ name +:+ "'".

(** The names as Python lists them: ['a'], ['a' and 'b'], and from three on
    ['a', 'b', and 'c']. *)
Definition missing_names (names : list string) : string :=
  match names with
  | [] => ""
  | [x] => quoted x
  | [x; y] => quoted x +:+ " and " +:+ quoted y
  | _ => String.concat ", " (quoted <$> removelast names)
         +:+ ", and " +:+ quoted (List.last names "")
  end.

Definition missing_message (names : list string) : string :=
  match names with
  | [x] => "RAGDeps.__init__() missing 1 required positional argument: '" +:+ x +:+ "'"
  | _ => "RAGDeps.__init__() missing " +:+ pretty (length names)
         +:+ " required positional arguments: " +:+ missing_names names
  end.

Definition RAGDeps_init (c : option PersistentClient) (n e : option string)
    (k : option Z) : result RAGDeps :=
  match c, n, e, k with
  | Some c, Some n, Some e, Some k =>
      Ok {| chroma_client := c; collection_name := n;
            embedding_model := e; n_results := k |}
  | _, _, _, _ => Raise (TypeError (missing_message (missing_fields c n e k)))
  end.

(** [RunContext[RAGDeps]]: the tool reads only [context.deps]. *)
Record RunContext : Type := { deps : RAGDeps }.

(** The arguments the model supplies in a call of the [retrieve] tool: the
    parameters of [retrieve] after [context]. *)
Record RetrieveArgs : Type := { search_query : string }.

(** What the model decides at a reasoning step: a call of the one registered
    tool, or the final answer. *)
Inductive Decision : Type :=
| ToolCall (args : RetrieveArgs)
| FinalAnswer (text : string).

(** What [Agent(...)] is constructed from: the model name (the environment
    variable [MODEL_CHOICE], or its default), the dependency type, which is
    [RAGDeps] throughout, and the system prompt. *)
Record Agent : Type := {
  model_name : string;
  system_prompt : string;
}.

Definition agent (MODEL_CHOICE : option string) : Agent := {|
  model_name := default "gpt-4.1-mini" MODEL_CHOICE;
  system_prompt :=
    "You are a world-class Retrieval-Augmented Generation (RAG) assistant specializing in knowledge retrieval "
    +:+ "and natural language processing. When answering questions, first use the retrieve tool to obtain relevant "
    +:+ "information from the provided documentation. Carefully read and synthesize the retrieved information to produce "
    +:+ "clear, concise, and accurate answers referencing the documentation. If the documentation does not contain the answer, "
    +:+ "explicitly state that the information is not available and provide your best general knowledge response, indicating "
    +:+ "the source is outside the documentation. Format your answers with a brief summary, relevant references from documentation, "
    +:+ "and any additional helpful details. Maintain a polite and engaging tone.";
|}.

(** The [logging.warning] records of [retrieve]. *)
Inductive LogRecord : Type :=
| LogEnteringRetrieve
| LogContextDir
| LogNResultsFromDeps (n : Z)
| LogDebugFound (requested : Z) (found : nat)
| LogTemperatureFromContext.

(** External calls, in the order the program makes them. *)
Inductive Event : Type :=
| EvLog (r : LogRecord)
| EvGetChromaClient (db_directory : string)
| EvGetOrCreateCollection (c : PersistentClient) (name model : string)
| EvQueryCollection (col : Collection) (query_text : string) (k : Z)
| EvFormat (q : QueryResults)
| EvAgentRun (question : string) (d : RAGDeps).

(** The trace monad: the calls made so far, and a value or an exception. *)
Definition M (A : Type) : Type := list Event * result A.

Definition ret {A} (a : A) : M A := ([], Ok a).
Definition bind {A B} (m : M A) (f : A → M B) : M B :=
  match m with
  | (t, Ok a) => let '(t', r) := f a in (t ++ t', r)
  | (t, Raise e) => (t, Raise e)
  end.
Definition emit (ev : Event) : M unit := ([ev], Ok tt).
Definition call {A} (ev : Event) (r : result A) : M A := ([ev], r).
Definition lift {A} (r : result A) : M A := ([], r).

Definition trace {A} (m : M A) : list Event := m.1.
Definition outcome {A} (m : M A) : result A := m.2.

#[global] Instance M_ret : MRet M := @ret.
#[global] Instance M_bind : MBind M := λ A B f m, bind m f.

Definition is_agent_run (ev : Event) : bool :=
  match ev with EvAgentRun _ _ => true | _ => false end.
Definition is_entering (ev : Event) : bool :=
  match ev with EvLog LogEnteringRetrieve => true | _ => false end.

(** The result counts passed to [query_collection] along a trace. *)
Definition query_counts (t : list Event) : list Z :=
  omap (λ ev, match ev with EvQueryCollection _ _ k => Some k | _ => None end) t.

(** How many tool-call parts a list of messages holds. *)
Definition is_tool_call (p : MessagePart) : bool :=
  match p with ToolCallPart _ _ => true | _ => false end.
Definition tool_call_parts (messages : list ModelMessage) : nat :=
  length (filter (λ p, Is_true (is_tool_call p)) (flat_map parts messages)).

(** How many times the [retrieve] tool was entered along a trace. *)
Definition tool_iterations (t : list Event) : nat :=
  length (filter (λ ev, Is_true (is_entering ev)) t).

Section WithUtils.

(** The helpers imported from [utils] and the library entry point
    [agent.run] are parameters.  Each may raise. *)
Variable get_chroma_client : string → result PersistentClient.
Variable get_or_create_collection :
  PersistentClient → string → string → result Collection.
Variable query_collection : Collection → string → Z → result QueryResults.
Variable format_results_as_context : QueryResults → string.
Variable agent_run : string → RAGDeps → result string.

(** [@agent.tool async def retrieve(context, search_query)] *)
Definition retrieve (context : RunContext) (search_query : string) : M string :=
  emit (EvLog LogEnteringRetrieve) ;;
  emit (EvLog LogContextDir) ;;
  let n_results_from_deps := n_results (deps context) in
  emit (EvLog (LogNResultsFromDeps n_results_from_deps)) ;;
  collection ←
    call (EvGetOrCreateCollection (chroma_client (deps context))
            (collection_name (deps context)) (embedding_model (deps context)))
         (get_or_create_collection (chroma_client (deps context))
            (collection_name (deps context)) (embedding_model (deps context)));
  query_results ←
    call (EvQueryCollection collection search_query n_results_from_deps)
         (query_collection collection search_query n_results_from_deps);
  docs0 ← lift (index0 (get_or_default (qr_documents query_results)));
  let num_docs_found := length docs0 in
  emit (EvLog (LogDebugFound n_results_from_deps num_docs_found)) ;;
  emit (EvLog LogTemperatureFromContext) ;;
  emit (EvFormat query_results) ;;
  ret (format_results_as_context query_results).

(** The tool as the agent library dispatches it: the model's arguments
    are bound to the parameters after [context]. *)
Definition call_retrieve (context : RunContext) (args : RetrieveArgs) : M string :=
  retrieve context (search_query args).

(** The number of model requests the agent library allows in one run when,
    as here, no usage limits are passed to it. *)
Definition default_request_limit : nat := 50.

(** Modelled from the spec: one turn of the agent, the state machine of
    section 4.4 (Reasoning, ToolCallRequested, ToolExecuting, Responding).  The
    loop is run by the agent library, whose code is missing from the source
    files: the model is asked, each tool call it issues is dispatched to
    [retrieve] and its result appended to the messages, until the model
    answers.  [Agent(...)] is constructed with a model name, a [deps_type] and a
    system prompt and nothing else, so the cap of section 4.4 is configured
    nowhere; the one bound is the library's own limit on model requests, and a
    request beyond it raises [UsageLimitExceeded]. *)
Fixpoint agent_turn (request_limit : nat) (llm : list ModelMessage → Decision)
    (context : RunContext) (messages : list ModelMessage)
    : M (string * list ModelMessage) :=
  match request_limit with
  | O => lift (Raise (UsageLimitExceeded
                        "The next request would exceed the request_limit"))
  | S request_limit' =>
      match llm messages with
      | FinalAnswer text =>
          ret (text, messages ++ [ModelResponse [TextPart text]])
      | ToolCall args =>
          out ← call_retrieve context args;
          agent_turn request_limit' llm context
            (messages ++ [ModelResponse [ToolCallPart "retrieve" (search_query args)];
                          ModelRequest [ToolReturnPart "retrieve" out]])
      end
  end.

(** [async def run_rag_agent(question, collection_name, db_directory,
    embedding_model, n_results)].  The arguments of the constructor call
    are evaluated first; [n_results] is not among them. *)
Definition run_rag_agent (question collection_name db_directory
    embedding_model : string) (n_results : Z) : M string :=
  client ← call (EvGetChromaClient db_directory) (get_chroma_client db_directory);
  deps ← lift (RAGDeps_init (Some client) (Some collection_name)
                  (Some embedding_model) None);
  call (EvAgentRun question deps) (agent_run question deps).

End WithUtils.

End RagAgent.


(** ** The retrieval engine and the context formatter

    The components behind [get_or_create_collection], [query_collection] and
    [format_results_as_context] of [utils]. *)

Module Engine.

(** A line feed. *)
Definition nl : string := String (Ascii.ascii_of_nat 10) "".

Section WithEmbedding.

(** The embedding capability is opaque: a vector type, distances that can be
    compared ([closer_eq a b]: [a] is at most as far as [b]), and an embedding
    function per model name that may fail. *)
Variable vector : Type.
Variable score : Type.
Variable closer_eq : score → score → bool.
Variable distance : vector → vector → score.
Variable embed : string → string → option vector.

(** Modelled from the spec: one (id, document text, embedding vector,
    metadata map) tuple of a collection (section 3); the store is missing from
    the source files. *)
Record Item : Type := {
  item_id : string;
  item_document : string;
  item_embedding : vector;
  item_metadata : Metadata;
}.

(** Modelled from the spec: the collection of section 3, a named set of
    (id, document, embedding, metadata) tuples bound to one embedding
    function; [index_ok] is false for a corrupt index or an invalid handle.
    The stored collection is missing from the source files. *)
Record StoredCollection : Type := {
  sc_name : string;
  sc_embedding_function : string;
  sc_items : list Item;
  sc_index_ok : bool;
}.

(** Modelled from the spec: one (id, document text, metadata map, distance
    score) entry of a retrieval result set (section 3); the engine is missing
    from the source files. *)
Record Retrieved : Type := {
  res_id : string;
  res_document : string;
  res_metadata : Metadata;
  res_distance : score;
}.

(** Modelled from the spec: the entry an item gives for a query vector; the
    engine is missing from the source files. *)
Definition rank (q : vector) (it : Item) : Retrieved := {|
  res_id := item_id it;
  res_document := item_document it;
  res_metadata := item_metadata it;
  res_distance := distance q (item_embedding it);
|}.

(** Modelled from the spec: the ranking order, ascending by distance; the
    engine is missing from the source files. *)
Definition nearer (a b : Retrieved) : Prop :=
  Is_true (closer_eq (res_distance a) (res_distance b)).

#[global] Instance nearer_dec : RelDecision nearer.
Proof. intros a b. unfold nearer. apply _. Defined.

(** Modelled from the spec: [query(collectionHandle, queryText, k)] of section
    4.2, the body of [utils.query_collection], which is missing.  [k] must be
    positive; the query text is embedded with the collection's embedding
    function ([EmbeddingFailure] when that errors), the search fails with
    [QueryFailure] on a bad index, and otherwise the items are ranked by
    ascending distance and the first [k] returned. *)
Definition query (c : StoredCollection) (queryText : string) (k : Z)
    : result (list Retrieved) :=
  if bool_decide (k < 1) then Raise (QueryFailure "k must be a positive integer")
  else match embed (sc_embedding_function c) queryText with
       | None => Raise (EmbeddingFailure "embedding provider error")
       | Some q =>
           if sc_index_ok c
           then Ok (take (Z.to_nat k) (merge_sort nearer (rank q <$> sc_items c)))
           else Raise (QueryFailure "search layer error")
       end.

(** Modelled from the spec: the provenance line and body of one result
    (section 4.3): the line with the "source" metadata field when present,
    then the document text.  [utils.format_results_as_context] is missing. *)
Definition format_entry (r : Retrieved) : string :=
  match res_metadata r !! "source" with
  | Some src => "Source: " +:+ src +:+ nl +:+ res_document r
  | None => res_document r
  end.

(** Modelled from the spec: [format(resultSet)] of section 4.3, the body of
    [utils.format_results_as_context], which is missing: the entries in
    ranked order, one blank line between them. *)
Definition format (resultSet : list Retrieved) : string :=
  String.concat (nl +:+ nl) (format_entry <$> resultSet).

(** Modelled from the spec: the state a component of section 4 could touch,
    the store of collections and the session's message history; the session
    and store objects are missing from the source files. *)
Record World : Type := {
  w_store : gmap string StoredCollection;
  w_history : list ModelMessage;
}.

(** Modelled from the spec: a component of section 4 as a state transformer
    over [World]; the components are missing from the source files. *)
Definition Op (A : Type) : Type := World → A * World.

(** Modelled from the spec: [getOrCreate(store, name, embeddingFunctionId)] of
    section 4.1, the body of [utils.get_or_create_collection], which is
    missing: an existing collection is returned as it is, and otherwise an
    empty one is created and bound to the embedding function. *)
Definition getOrCreate (name embeddingFunctionId : string) : Op StoredCollection :=
  λ w, match w_store w !! name with
       | Some c => (c, w)
       | None =>
           let c := {| sc_name := name; sc_embedding_function := embeddingFunctionId;
                       sc_items := []; sc_index_ok := true |} in
           (c, {| w_store := <[name := c]> (w_store w); w_history := w_history w |})
       end.

End WithEmbedding.

Arguments item_id {vector} _.
Arguments item_document {vector} _.
Arguments item_embedding {vector} _.
Arguments item_metadata {vector} _.
Arguments sc_name {vector} _.
Arguments sc_embedding_function {vector} _.
Arguments sc_items {vector} _.
Arguments sc_index_ok {vector} _.
Arguments res_id {score} _.
Arguments res_document {score} _.
Arguments res_metadata {score} _.
Arguments res_distance {score} _.
Arguments w_store {vector} _.
Arguments w_history {vector} _.
Arguments rank {vector score} distance q it.
Arguments nearer {score} closer_eq a b.
Arguments query {vector score} closer_eq distance embed c queryText k.
Arguments format_entry {score} r.
Arguments format {score} resultSet.
Arguments getOrCreate {vector} name embeddingFunctionId _.

End Engine.


(** ** The context formatter over Python's values *)

Module Formatter.

(** Modelled from the spec: the metadata map of a result (section 3) as the
    Python code holds it, a [dict] from strings to strings that keeps its keys
    in insertion order.  [utils], which builds and reads it, is missing. *)
Definition PyDict : Type := list (string * string).

(** Modelled from the spec: [d.get(key)]; [utils] is missing. *)
Fixpoint dict_get (d : PyDict) (key : string) : option string :=
  match d with
  | [] => None
  | (k, v) :: d' => if decide (k = key) then Some v else dict_get d' key
  end.

(** Modelled from the spec: [d1 == d2] on two such dicts, the same keys with
    the same values, in whatever order they were inserted; [utils] is
    missing. *)
Definition dict_eq (d1 d2 : PyDict) : Prop :=
  Forall (λ key, dict_get d1 key = dict_get d2 key) (d1.*1 ++ d2.*1).

#[global] Instance dict_eq_dec : RelDecision dict_eq.
Proof. intros d1 d2. unfold dict_eq. apply _. Defined.

Section WithScore.

Variable vector : Type.
Variable score : Type.
Context `{EqDecision score}.

(** Modelled from the spec: one (id, document text, metadata map, distance
    score) entry of a retrieval result set (section 3), with the metadata as
    a Python dict; [utils] is missing. *)
Record PyResult : Type := {
  py_id : string;
  py_document : string;
  py_metadata : PyDict;
  py_distance : score;
}.

(** Modelled from the spec: equality of two entries, field by field, the
    metadata compared as dicts; [utils] is missing. *)
Definition result_eq (r1 r2 : PyResult) : Prop :=
  py_id r1 = py_id r2
  ∧ py_document r1 = py_document r2
  ∧ dict_eq (py_metadata r1) (py_metadata r2)
  ∧ py_distance r1 = py_distance r2.

#[global] Instance result_eq_dec : RelDecision result_eq.
Proof. intros r1 r2. unfold result_eq. apply _. Defined.

(** Modelled from the spec: equality of two result sets, the same length and
    equal entries at every rank; [utils] is missing. *)
Definition result_set_eq (rs1 rs2 : list PyResult) : Prop :=
  Forall2 result_eq rs1 rs2.

#[global] Instance result_set_eq_dec : RelDecision result_set_eq.
Proof. intros rs1 rs2. unfold result_set_eq. apply _. Defined.

(** Modelled from the spec: the provenance line and body of one result
    (section 4.3), read off the Python entry: the line with the "source"
    metadata field when present, then the document text.
    [utils.format_results_as_context] is missing. *)
Definition format_entry (r : PyResult) : string :=
  match dict_get (py_metadata r) "source" with
  | Some src => "Source: " +:+ src +:+ Engine.nl +:+ py_document r
  | None => py_document r
  end.

(** Modelled from the spec: [format(resultSet)] of section 4.3 over the
    Python entries, the body of [utils.format_results_as_context], which is
    missing: the entries in ranked order, one blank line between them. *)
Definition format (resultSet : list PyResult) : string :=
  String.concat (Engine.nl +:+ Engine.nl) (format_entry <$> resultSet).

(** Modelled from the spec: the entry of section 3 that a Python entry stands
    for, its metadata as a finite map; [utils] is missing. *)
Definition as_retrieved (r : PyResult) : Engine.Retrieved score := {|
  Engine.res_id := py_id r;
  Engine.res_document := py_document r;
  Engine.res_metadata := list_to_map (py_metadata r);
  Engine.res_distance := py_distance r;
|}.

(** Modelled from the spec: what a call of the formatter can reach: the
    result set it is handed, which Python passes by reference, the store of
    collections and the session's message history (section 4); the caller in
    [utils] is missing. *)
Record Reach : Type := {
  reach_results : list PyResult;
  reach_world : Engine.World vector;
}.

(** Modelled from the spec: a call of the formatter on the result set at
    hand, as a transformer of what it can reach (section 4.3); [utils] is
    missing. *)
Definition format_call : Reach → string * Reach :=
  λ st, (format (reach_results st), st).

End WithScore.

Arguments py_id {score} _.
Arguments py_document {score} _.
Arguments py_metadata {score} _.
Arguments py_distance {score} _.
Arguments result_eq {score} r1 r2.
Arguments result_set_eq {score} rs1 rs2.
Arguments format_entry {score} r.
Arguments format {score} resultSet.
Arguments as_retrieved {score} r.
Arguments reach_results {vector score} _.
Arguments reach_world {vector score} _.
Arguments format_call {vector score} _.

End Formatter.


(** ** streamlit_app.py *)

Module StreamlitApp.
Import RagAgent.

Definition DB_DIR : string := "./chroma_db".
Definition EMBEDDING_MODEL : string := "all-MiniLM-L6-v2".

(** [st.session_state]: a key is present ([Some]) or not. *)
Record SessionState : Type := {
  messages : option (list ModelMessage);
  agent_deps : option RAGDeps;
}.

(** What the widgets return on one run of the script.  The slider position is
    counted in its steps of 0.05, from 0 to 20. *)
Record Widgets : Type := {
  selected_collection_name : string;
  n_results_to_retrieve : Z;
  selected_temperature : Z;
  user_input : option string;
}.

(** What is drawn on the page. *)
Inductive UiEvent : Type :=
| UiTitle (text : string)
| UiChatUser (text : string)
| UiChatAssistant (text : string)
| UiPlaceholder (text : string)
| UiExpander (label : string) (lines : list string)
| UiError (text : string).

(** What [agent.run_stream] hands back: the text deltas of
    [stream_text(delta=True)], the exception that ends the stream early if
    there is one, and the list returned by [new_messages()]. *)
Record StreamedRunResult : Type := {
  stream_text : list string;
  stream_failure : option exn;
  new_messages : list ModelMessage;
}.

(** How a piece of the script ends: normally, with an exception, or with the
    control request of [st.rerun()] or [st.stop()]. *)
Inductive Outcome (A : Type) : Type :=
| Done (a : A)
| Raised (e : exn)
| Rerun
| Stop.
Arguments Done {A} a.
Arguments Raised {A} e.
Arguments Rerun {A}.
Arguments Stop {A}.

(** The script monad: session state is threaded, the page is written to. *)
Definition U (A : Type) : Type := SessionState → list UiEvent * SessionState * Outcome A.

Definition u_ret {A} (a : A) : U A := λ s, ([], s, Done a).
Definition u_bind {A B} (m : U A) (f : A → U B) : U B :=
  λ s, match m s with
       | (o, s', Done a) => let '(o', s'', r) := f a s' in (o ++ o', s'', r)
       | (o, s', Raised e) => (o, s', Raised e)
       | (o, s', Rerun) => (o, s', Rerun)
       | (o, s', Stop) => (o, s', Stop)
       end.
#[global] Instance U_ret : MRet U := @u_ret.
#[global] Instance U_bind : MBind U := λ A B f m, u_bind m f.

Definition draw (ev : UiEvent) : U unit := λ s, ([ev], s, Done tt).
Definition draw_all (evs : list UiEvent) : U unit := λ s, (evs, s, Done tt).
Definition get_state : U SessionState := λ s, ([], s, Done s).
Definition put_state (s' : SessionState) : U unit := λ _, ([], s', Done tt).
Definition raise {A} (e : exn) : U A := λ s, ([], s, Raised e).
Definition rerun {A} : U A := λ s, ([], s, Rerun).
Definition stop {A} : U A := λ s, ([], s, Stop).
Definition lift_result {A} (r : result A) : U A :=
  match r with Ok a => u_ret a | Raise e => raise e end.

(** [try: body except Exception as e: handler(e)] *)
Definition try_except {A} (body : U A) (handler : exn → U A) : U A :=
  λ s, match body s with
       | (o, s', Raised e) => let '(o', s'', r) := handler e s' in (o ++ o', s'', r)
       | other => other
       end.

Definition page {A} (r : list UiEvent * SessionState * Outcome A) : list UiEvent := r.1.1.
Definition session {A} (r : list UiEvent * SessionState * Outcome A) : SessionState := r.1.2.
Definition ending {A} (r : list UiEvent * SessionState * Outcome A) : Outcome A := r.2.

(** [st.session_state.agent_deps] and [st.session_state.messages] *)
Definition attr_agent_deps : U RAGDeps :=
  s ← get_state;
  match agent_deps s with
  | Some d => u_ret d
  | None => raise (AttributeError "st.session_state has no attribute 'agent_deps'")
  end.

Definition attr_messages : U (list ModelMessage) :=
  s ← get_state;
  match messages s with
  | Some h => u_ret h
  | None => raise (AttributeError "st.session_state has no attribute 'messages'")
  end.

(** The history as the script reads it once it exists. *)
Definition history (s : SessionState) : list ModelMessage := default [] (messages s).

(** The same widgets with the slider moved. *)
Definition with_temperature (t : Z) (w : Widgets) : Widgets := {|
  selected_collection_name := selected_collection_name w;
  n_results_to_retrieve := n_results_to_retrieve w;
  selected_temperature := t;
  user_input := user_input w;
|}.

(** The assistant text a list of messages ends with: the content of its last
    text part. *)
Definition text_of (p : MessagePart) : option string :=
  match p with TextPart content => Some content | _ => None end.
Definition final_assistant_text (msgs : list ModelMessage) : option string :=
  last (omap text_of (flat_map parts msgs)).

(** The messages a turn added to a history. *)
Definition committed_in_turn (before after : list ModelMessage) : list ModelMessage :=
  drop (length before) after.

(** The block cursor shown while the answer streams. *)
Definition cursor : string := "▌".

(** [display_message_part(part)] *)
Definition display_message_part (part : MessagePart) : list UiEvent :=
  match part with
  | UserPromptPart content => [UiChatUser content]
  | TextPart content => [UiChatAssistant content]
  | _ => []
  end.

(** [meta.get("source") for meta in metadatas if meta and meta.get("source")] *)
Definition source_of (meta : option Metadata) : option string :=
  match meta with
  | Some m =>
      if decide (m = ∅) then None
      else match m !! "source" with
           | Some src => if decide (src = "") then None else Some src
           | None => None
           end
  | None => None
  end.

(** [sorted(list(set([...])))] *)
Definition source_urls_of (metadatas : list (option Metadata)) : list string :=
  merge_sort String.le (elements (list_to_set (omap source_of metadatas) : gset string)).

(** The text assembled from the deltas: [full_response += message]. *)
Definition assemble (deltas : list string) : string :=
  foldl String.append "" deltas.

(** The placeholder updates while streaming, then the final one without the
    cursor. *)
Fixpoint placeholder_updates (full_response : string) (deltas : list string)
    : list UiEvent :=
  match deltas with
  | [] => []
  | message :: rest =>
      UiPlaceholder ((full_response +:+ message) +:+ cursor)
      :: placeholder_updates (full_response +:+ message) rest
  end.

Section WithUtils.

Variable get_chroma_client : string → result PersistentClient.
Variable get_or_create_collection :
  PersistentClient → string → string → result Collection.
Variable query_collection : Collection → string → Z → result QueryResults.
(** The names of [chroma_client.list_collections()]. *)
Variable list_collections : PersistentClient → result (list string).
(** [agent.run_stream(user_input, deps=, message_history=, n_results=,
    temperature=)] of the agent library, up to the end of the stream. *)
Variable run_stream :
  string → RAGDeps → list ModelMessage → Z → Z → result StreamedRunResult.

(** [async def get_agent_deps(collection_name_to_use, n_results_to_use)] *)
Definition get_agent_deps (collection_name_to_use : string) (n_results_to_use : Z)
    : result RAGDeps :=
  match get_chroma_client "./chroma_db" with
  | Ok client =>
      RAGDeps_init (Some client) (Some collection_name_to_use)
        (Some "all-MiniLM-L6-v2") (Some n_results_to_use)
  | Raise e => Raise e
  end.

(** The first part of [main], after the widgets: the history is created if
    absent, and the dependencies are installed anew when there are none or
    when the selection differs from them. *)
Definition select (w : Widgets) : U unit :=
  s ← get_state;
  (if messages s is Some _ then u_ret tt
   else put_state {| messages := Some []; agent_deps := agent_deps s |}) ;;
  s ← get_state;
  let current_deps_collection := collection_name <$> agent_deps s in
  let current_deps_n_results := n_results <$> agent_deps s in
  if bool_decide (agent_deps s = None)
     || bool_decide (current_deps_collection ≠ Some (selected_collection_name w))
     || bool_decide (current_deps_n_results ≠ Some (n_results_to_retrieve w))
  then
    d ← lift_result (get_agent_deps (selected_collection_name w)
                       (n_results_to_retrieve w));
    s ← get_state;
    put_state {| messages := messages s; agent_deps := Some d |} ;;
    s ← get_state;
    put_state {| messages := Some []; agent_deps := agent_deps s |} ;;
    rerun
  else u_ret tt.

(** The history as displayed at the start of a run. *)
Definition display_history : U unit :=
  h ← attr_messages;
  draw_all (flat_map (λ msg, flat_map display_message_part (parts msg)) h).

(** [async def run_agent_with_streaming(user_input, n_results_to_retrieve,
    selected_temperature)]: an asynchronous generator.  Its value here is the
    list of the deltas it yields, and the code it runs once the stream is
    exhausted: the exception that ended the stream if there is one, and
    otherwise the extension of the history with [result.new_messages()]. *)
Definition run_agent_with_streaming (user_input : string) (n_results_to_retrieve : Z)
    (selected_temperature : Z) : U (list string * U unit) :=
  d ← attr_agent_deps;
  h ← attr_messages;
  result ← lift_result (run_stream user_input d h n_results_to_retrieve
                           selected_temperature);
  u_ret (stream_text result,
         match stream_failure result with
         | Some e => raise e
         | None =>
             h ← attr_messages;
             s ← get_state;
             put_state {| messages := Some (h ++ new_messages result);
                          agent_deps := agent_deps s |}
         end).

(** The [async for] of [main] over the generator: every delta is appended to
    [full_response] and drawn with the cursor, and when the generator has
    finished the text is drawn without it.  The value is [full_response]. *)
Definition stream_answer (user_input : string) (n_results_to_retrieve : Z)
    (selected_temperature : Z) : U string :=
  generator ← run_agent_with_streaming user_input n_results_to_retrieve
                 selected_temperature;
  draw_all (placeholder_updates "" generator.1) ;;
  generator.2 ;;
  draw (UiPlaceholder (assemble generator.1)) ;;
  u_ret (assemble generator.1).

(** The body of the [try] that displays the sources. *)
Definition display_sources_body (user_input : string) (n_results_to_retrieve : Z)
    : U unit :=
  d ← attr_agent_deps;
  collection ← lift_result (get_or_create_collection (chroma_client d)
                               (collection_name d) (embedding_model d));
  query_results ← lift_result (query_collection collection user_input
                                  n_results_to_retrieve);
  metadatas ← lift_result (index0 (get_or_default (qr_metadatas query_results)));
  let source_urls := source_urls_of metadatas in
  if bool_decide (source_urls = []) then u_ret tt
  else draw (UiExpander "Retrieved Sources" ((λ url, "- " +:+ url) <$> source_urls)).

(** [try: ... except Exception as e: st.error(...)] *)
Definition display_sources (user_input : string) (n_results_to_retrieve : Z) : U unit :=
  try_except (display_sources_body user_input n_results_to_retrieve)
    (λ e, draw (UiError ("Error retrieving sources: " +:+ exn_str e))).

(** One turn: [if user_input: ...]. *)
Definition turn (w : Widgets) : U unit :=
  match user_input w with
  | None => u_ret tt
  | Some text =>
      if bool_decide (text = "") then u_ret tt
      else
        draw (UiChatUser text) ;;
        _ ← stream_answer text (n_results_to_retrieve w) (selected_temperature w);
        display_sources text (n_results_to_retrieve w)
  end.

(** [async def main()] *)
Definition main (w : Widgets) : U unit :=
  draw (UiTitle "ChromaDB Crawl4AI RAG AI Agent") ;;
  select w ;;
  display_history ;;
  turn w.

(** The script as Streamlit runs it: the module-level block that opens the
    store and lists its collections, stopping the script when either fails or
    when there is no collection, and then [main]. *)
Definition script (w : Widgets) : U unit :=
  match get_chroma_client DB_DIR with
  | Raise e =>
      draw (UiError ("Failed to connect to ChromaDB at " +:+ DB_DIR +:+ ": "
                     +:+ exn_str e)) ;;
      stop
  | Ok chroma_client =>
      match list_collections chroma_client with
      | Raise e =>
          draw (UiError ("Failed to connect to ChromaDB at " +:+ DB_DIR +:+ ": "
                         +:+ exn_str e)) ;;
          stop
      | Ok [] =>
          draw (UiError ("No collections found in " +:+ DB_DIR
                         +:+ ". Please run insert_docs.py first.")) ;;
          stop
      | Ok (_ :: _) => main w
      end
  end.

End WithUtils.

End StreamlitApp.


(** ** view_chroma_data_full_export.py *)

Module CsvExport.

(** The dict returned by [collection.get(include=["metadatas", "documents"])].
    A value that is [None] behaves like the empty list everywhere below (both
    are falsy), so the lists stand for both; an item without a document or
    without metadata has [None] in its place. *)
Record GetResults : Type := {
  g_ids : list string;
  g_documents : list (option string);
  g_metadatas : list (option Metadata);
}.

(** A CSV file as [csv.DictWriter] sees it: rows of cells, header first. *)
Definition Csv : Type := list (list string).

(** The [row] dict passed to [writer.writerow]; a value may be [None]. *)
Abbreviation Row := (gmap string (option string)).

Definition header_for_empty : list string :=
  ["id"; "document"; "source"; "chunk_index"; "headers"; "char_count"; "word_count"].

(** [all_meta_keys], after the loop over [metadatas]. *)
Definition all_meta_keys (metadatas : list (option Metadata)) : gset string :=
  foldl (λ keys meta_item,
           match meta_item with
           | Some m => if decide (m = ∅) then keys else keys ∪ dom m
           | None => keys
           end) ∅ metadatas.

(** [sorted(list(all_meta_keys))] *)
Definition sorted_meta_keys (metadatas : list (option Metadata)) : list string :=
  merge_sort String.le (elements (all_meta_keys metadatas)).

(** [header], after [header.extend(sorted_meta_keys)] when [metadatas] is
    not empty. *)
Definition header (metadatas : list (option Metadata)) : list string :=
  ["id"; "document"] ++ (if metadatas is [] then [] else sorted_meta_keys metadatas).

(** The [row] dict built for index [i]. *)
Definition row_dict (r : GetResults) (i : nat) (id : string) : Row :=
  let row : Row := <["document" := mjoin (g_documents r !! i)]> (<["id" := Some id]> ∅) in
  let meta_for_row := default ∅ (mjoin (g_metadatas r !! i)) in
  if decide (meta_for_row = ∅) then row
  else foldl (λ row key, <[key := meta_for_row !! key]> row) row
         (sorted_meta_keys (g_metadatas r)).

(** [DictWriter.writerow(row)]: one cell per field name; a missing key gives
    the empty [restval] and [None] is written as the empty string. *)
Definition writerow (fieldnames : list string) (row : Row) : list string :=
  (λ f, default "" (mjoin (row !! f))) <$> fieldnames.

(** The rows written for [for i in range(len(ids))]. *)
Definition data_rows (r : GetResults) : list (list string) :=
  imap (λ i id, writerow (header (g_metadatas r)) (row_dict r i id)) (g_ids r).

(** The part of [export_collection_to_csv] that follows the lookup of the
    collection.  [fetched] is the outcome of [collection.get(...)], [before] the
    content of the output file before the call ([None]: no such file), and
    [writable] whether the file can be opened for writing.  The value is the
    content of the file afterwards. *)
Definition export_collection_to_csv (fetched : result GetResults)
    (before : option Csv) (writable : bool) : option Csv :=
  let results := match fetched with Ok r => Some r | Raise _ => None end in
  let ids := default [] (g_ids <$> results) in
  match results, ids with
  | Some r, _ :: _ =>
      if writable then Some (header (g_metadatas r) :: data_rows r) else before
  | _, _ =>
      if bool_decide (before = None) || bool_decide (before = Some [])
      then (if writable then Some [header_for_empty] else before)
      else before
  end.

End CsvExport.


(** ** Sample data: a small store, a scripted model and a streamed run *)

Module Samples.
Import RagAgent StreamlitApp CsvExport.

Definition meta_guide : Metadata := {[ "source" := "https://docs.example/guide"; "chunk_index" := "0" ]}.
Definition meta_api : Metadata := {[ "source" := "https://docs.example/api"; "chunk_index" := "3" ]}.
Definition meta_plain : Metadata := {[ "chunk_index" := "7" ]}.

(** Only [./chroma_db] is a store. *)
Definition sample_get_chroma_client (db_directory : string) : result PersistentClient :=
  if decide (db_directory = "./chroma_db") then Ok {| client_path := db_directory |}
  else Raise (StoreUnavailable ("not a store: " +:+ db_directory)).

Definition sample_list_collections (c : PersistentClient) : result (list string) :=
  Ok ["blog"; "docs"].

Definition sample_get_or_create_collection (c : PersistentClient) (name model : string)
    : result Collection :=
  Ok {| col_client := c; col_name := name; col_embedding_model := model |}.

Definition sample_query_results : QueryResults := {|
  qr_ids := Some [["c1"; "c2"; "c3"; "c4"]];
  qr_documents := Some [["Install it."; "Call the API."; "Install it again."; "Loose notes."]];
  qr_metadatas := Some [[Some meta_guide; Some meta_api; Some meta_guide; Some meta_plain]];
|}.

(** The embedding provider rejects an over-long query. *)
Definition sample_query_collection (col : Collection) (query_text : string) (k : Z)
    : result QueryResults :=
  if bool_decide (String.length query_text ≤ 40)%nat then Ok sample_query_results
  else Raise (EmbeddingFailure "embedding provider rejected the query").

Definition sample_format_results_as_context (q : QueryResults) : string :=
  String.concat " " (default [] (head (get_or_default (qr_documents q)))).

Definition sample_agent_run (question : string) (d : RAGDeps) : result string :=
  Ok ("An answer to: " +:+ question).

Definition sample_deps : RAGDeps := {|
  chroma_client := {| client_path := "./chroma_db" |};
  collection_name := "docs";
  embedding_model := "all-MiniLM-L6-v2";
  n_results := 5;
|}.

Definition sample_context : RunContext := {| deps := sample_deps |}.

(** A model that asks for the tool twice and then answers. *)
Definition twice_llm (messages : list ModelMessage) : Decision :=
  if bool_decide (length messages < 5)%nat
  then ToolCall {| search_query := "install" |}
  else FinalAnswer "Install it, then call the API.".

(** A model that asks for the tool at every step. *)
Definition eager_llm (messages : list ModelMessage) : Decision :=
  ToolCall {| search_query := "more" |}.

(** The cap on tool-call iterations that section 4.4 recommends as default. *)
Definition recommended_cap : nat := 1.

(** A streamed run with one round of the tool: the answer arrives in two
    deltas, and [new_messages()] holds the request, the round and the
    response. *)
Definition sample_run_stream (user_input : string) (d : RAGDeps)
    (message_history : list ModelMessage) (n_results temperature : Z)
    : result StreamedRunResult :=
  Ok {| stream_text := ["Install "; "it."];
        stream_failure := None;
        new_messages := [ModelRequest [UserPromptPart user_input];
                         ModelResponse [ToolCallPart "retrieve" user_input];
                         ModelRequest [ToolReturnPart "retrieve" "Install it."];
                         ModelResponse [TextPart "Install it."]] |}.

Definition sample_session : SessionState := {|
  messages := Some [ModelRequest [UserPromptPart "hello"]; ModelResponse [TextPart "Hi."]];
  agent_deps := Some sample_deps;
|}.

Definition sample_widgets : Widgets := {|
  selected_collection_name := "docs";
  n_results_to_retrieve := 5;
  selected_temperature := 14;
  user_input := Some "How do I install it?";
|}.

(** The same page with a question the embedding provider rejects. *)
Definition long_widgets : Widgets := {|
  selected_collection_name := "docs";
  n_results_to_retrieve := 5;
  selected_temperature := 14;
  user_input := Some "Please list every installation step for every platform, in order";
|}.

(** The same page with another knowledge base selected. *)
Definition blog_widgets : Widgets := {|
  selected_collection_name := "blog";
  n_results_to_retrieve := 5;
  selected_temperature := 14;
  user_input := None;
|}.

Definition blog_deps : RAGDeps := {|
  chroma_client := {| client_path := "./chroma_db" |};
  collection_name := "blog";
  embedding_model := "all-MiniLM-L6-v2";
  n_results := 5;
|}.

(** The session after the switch and the rerun. *)
Definition idle_session : SessionState := {|
  messages := Some [];
  agent_deps := Some blog_deps;
|}.

(** Two items; the first has a metadata key named like a fixed column, the
    second has no metadata. *)
Definition clash_results : GetResults := {|
  g_ids := ["a"; "b"];
  g_documents := [Some "d1"; Some "d2"];
  g_metadatas := [Some {[ "document" := "x" ]}; None];
|}.

Definition plain_results : GetResults := {|
  g_ids := ["c1"; "c2"; "c3"];
  g_documents := [Some "Install it."; Some "Call the API."; Some "Loose notes."];
  g_metadatas := [Some meta_guide; Some meta_api; None];
|}.

(** A toy embedding: a text is embedded as its length, and the distance of
    two vectors is the absolute difference. *)
Definition toy_embed (model text : string) : option Z :=
  if bool_decide (text = "") then None else Some (Z.of_nat (String.length text)).
Definition toy_distance (a b : Z) : Z := Z.abs (a - b).

Definition toy_item (id document : string) (m : Metadata) : Engine.Item Z := {|
  Engine.item_id := id;
  Engine.item_document := document;
  Engine.item_embedding := Z.of_nat (String.length document);
  Engine.item_metadata := m;
|}.

Definition toy_collection : Engine.StoredCollection Z := {|
  Engine.sc_name := "docs";
  Engine.sc_embedding_function := "all-MiniLM-L6-v2";
  Engine.sc_items := [toy_item "c1" "Install it." meta_guide;
                      toy_item "c2" "Call the API." meta_api;
                      toy_item "c3" "Loose notes." meta_plain];
  Engine.sc_index_ok := true;
|}.

Definition toy_results : list (Engine.Retrieved Z) := [
  {| Engine.res_id := "c3"; Engine.res_document := "Loose notes.";
     Engine.res_metadata := meta_plain; Engine.res_distance := 0 |};
  {| Engine.res_id := "c1"; Engine.res_document := "Install it.";
     Engine.res_metadata := meta_guide; Engine.res_distance := 1 |}].

Definition toy_world : Engine.World Z := {|
  Engine.w_store := {[ "docs" := toy_collection ]};
  Engine.w_history := [ModelRequest [UserPromptPart "hello"]];
|}.

(** The same result set as two Python values: the metadata of the second
    entry was filled in a different order. *)
Definition py_results : list (Formatter.PyResult Z) := [
  {| Formatter.py_id := "c3"; Formatter.py_document := "Loose notes.";
     Formatter.py_metadata := [("title", "Notes")]; Formatter.py_distance := 0 |};
  {| Formatter.py_id := "c1"; Formatter.py_document := "Install it.";
     Formatter.py_metadata := [("source", "https://docs.example/guide");
                               ("title", "Guide")];
     Formatter.py_distance := 1 |}].

Definition py_results_reordered : list (Formatter.PyResult Z) := [
  {| Formatter.py_id := "c3"; Formatter.py_document := "Loose notes.";
     Formatter.py_metadata := [("title", "Notes")]; Formatter.py_distance := 0 |};
  {| Formatter.py_id := "c1"; Formatter.py_document := "Install it.";
     Formatter.py_metadata := [("title", "Guide");
                               ("source", "https://docs.example/guide")];
     Formatter.py_distance := 1 |}].

(** A rendering that shows every metadata field in the order the dict holds
    them, for comparison with the formatter. *)
Definition dump_entry (r : Formatter.PyResult Z) : string :=
  String.concat ", " ((λ kv, kv.1 +:+ "=" +:+ kv.2) <$> Formatter.py_metadata r)
  +:+ Engine.nl +:+ Formatter.py_document r.
Definition dump (resultSet : list (Formatter.PyResult Z)) : string :=
  String.concat (Engine.nl +:+ Engine.nl) (dump_entry <$> resultSet).

(** What the formatter can reach in the toy session, and the same with an
    empty store and another history. *)
Definition toy_reach : Formatter.Reach Z Z := {|
  Formatter.reach_results := py_results;
  Formatter.reach_world := toy_world;
|}.

Definition other_reach : Formatter.Reach Z Z := {|
  Formatter.reach_results := py_results_reordered;
  Formatter.reach_world := {| Engine.w_store := ∅; Engine.w_history := [] |};
|}.


End Samples.


(** ** view_chroma_data_full_export.py: finding the collection *)

Module CsvExportCli.
Import CsvExport.

(** A collection object of [client.list_collections()]. *)
Record CollectionObj : Type := {
  co_name : string;
  co_id : string;
}.

(** How a command-line function ends: it returns, or [sys.exit(code)] ends
    the process; [except Exception] does not catch the latter. *)
Inductive Exit (A : Type) : Type :=
| Returned (a : A)
| SysExit (code : Z).
Arguments Returned {A} a.
Arguments SysExit {A} code.

(** The [for coll_obj in all_collections] loop with its [break]: the first
    collection whose name equals the target. *)
Fixpoint find_exact (target_collection_name : string)
    (all_collections : list CollectionObj) : option CollectionObj :=
  match all_collections with
  | [] => None
  | coll_obj :: rest =>
      if decide (co_name coll_obj = target_collection_name) then Some coll_obj
      else find_exact target_collection_name rest
  end.

Section WithChroma.

(** [chromadb.PersistentClient(path=...)], [client.list_collections()],
    [collection.count()] and [collection.get(include=[...])]. *)
Variable persistent_client : string → result PersistentClient.
Variable list_collections : PersistentClient → result (list CollectionObj).
Variable count : CollectionObj → result Z.
Variable get : CollectionObj → result GetResults.

(** The first part of [export_collection_to_csv]: connect, list, find the
    exact name, count. *)
Definition locate_collection (db_dir target_collection_name : string)
    : Exit CollectionObj :=
  match persistent_client db_dir with
  | Raise _ => SysExit 1
  | Ok client =>
      match list_collections client with
      | Raise _ => SysExit 1
      | Ok [] => SysExit 1
      | Ok (c :: cs) =>
          match find_exact target_collection_name (c :: cs) with
          | None => SysExit 1
          | Some collection =>
              match count collection with
              | Raise _ => SysExit 1
              | Ok _ => Returned collection
              end
          end
      end
  end.

(** [export_collection_to_csv(db_dir, target_collection_name,
    output_csv_file)] as a whole: the content of the output file afterwards,
    and how the call ends. *)
Definition export_collection (db_dir target_collection_name : string)
    (before : option Csv) (writable : bool) : option Csv * Exit unit :=
  match locate_collection db_dir target_collection_name with
  | SysExit code => (before, SysExit code)
  | Returned collection =>
      (export_collection_to_csv (get collection) before writable, Returned tt)
  end.

End WithChroma.

End CsvExportCli.


(** ** list_chroma_collections.py *)

Module ListCollections.
Import CsvExportCli.

(** The lines the script prints.  A table row is
    [f"{collection_name:<40} | {count:<10}"], and the row of a collection that
    could not be counted has ['Error counting'] in the second column. *)
Inductive Printed : Type :=
| Connecting (db_dir : string)
| ErrorConnecting (e : exn)
| PleaseEnsure (db_dir : string)
| Fetching
| ErrorListing (e : exn)
| NoCollections
| Found (n : nat)
| Rule
| TableHeader
| TableRow (collection_name : string) (count : Z)
| CouldNotCount (collection_name : string) (e : exn)
| TableRowError (collection_name : string)
| NotADirectory (db_dir : string).

(** The first column of a table row, and its second column when it is a
    count. *)
Definition row_of (p : Printed) : option (string * option Z) :=
  match p with
  | TableRow name n => Some (name, Some n)
  | TableRowError name => Some (name, None)
  | _ => None
  end.

Section WithChroma.

Variable isdir : string → bool.
Variable persistent_client : string → result PersistentClient.
Variable list_collections : PersistentClient → result (list CollectionObj).
Variable get_collection : PersistentClient → string → result CollectionObj.
Variable count : CollectionObj → result Z.

(** [client.get_collection(name=...).count()], inside the [try] of the loop. *)
Definition count_of (client : PersistentClient) (collection_name : string) : result Z :=
  match get_collection client collection_name with
  | Ok collection_to_count => count collection_to_count
  | Raise e => Raise e
  end.

(** The body of [for collection_obj in collections]. *)
Definition print_row (client : PersistentClient) (collection_obj : CollectionObj)
    : list Printed :=
  let collection_name := co_name collection_obj in
  match count_of client collection_name with
  | Ok n => [TableRow collection_name n]
  | Raise e => [CouldNotCount collection_name e; TableRowError collection_name]
  end.

(** [list_collections_with_counts(db_dir)]: what is printed, and how the call
    ends. *)
Definition list_collections_with_counts (db_dir : string) : list Printed * Exit unit :=
  match persistent_client db_dir with
  | Raise e =>
      ([Connecting db_dir; ErrorConnecting e; PleaseEnsure db_dir], SysExit 1)
  | Ok client =>
      match list_collections client with
      | Raise e => ([Connecting db_dir; Fetching; ErrorListing e], SysExit 1)
      | Ok [] => ([Connecting db_dir; Fetching; NoCollections], Returned tt)
      | Ok (c :: cs) =>
          ([Connecting db_dir; Fetching; Found (length (c :: cs)); Rule;
            TableHeader; Rule]
           ++ flat_map (print_row client) (c :: cs) ++ [Rule],
           Returned tt)
      end
  end.

(** [main()], after the arguments are parsed. *)
Definition main (db_dir : string) : list Printed * Exit unit :=
  if isdir db_dir then list_collections_with_counts db_dir
  else ([NotADirectory db_dir], SysExit 1).

End WithChroma.

End ListCollections.


(** ** Views of traces and sessions *)

Module Views.
Import RagAgent StreamlitApp.

(** Whether an event is a call of [format_results_as_context]. *)
Definition is_format (ev : Event) : bool :=
  match ev with EvFormat _ => true | _ => false end.

(** The session once [main] has made sure that the history exists. *)
Definition with_history (s : SessionState) : SessionState :=
  {| messages := Some (history s); agent_deps := agent_deps s |}.

(** The value of a call that returned. *)
Definition ok_value {A} (r : result A) : option A :=
  match r with Ok a => Some a | Raise _ => None end.

(** Whether something drawn is a chat message. *)
Definition is_chat (ev : UiEvent) : bool :=
  match ev with UiChatUser _ | UiChatAssistant _ => true | _ => false end.

End Views.


(** ** More sample data *)

Module MoreSamples.
Import RagAgent StreamlitApp CsvExport CsvExportCli ListCollections Samples.

(** Query results whose "documents" list is empty. *)
Definition hollow_query_results : QueryResults := {|
  qr_ids := Some [];
  qr_documents := Some [];
  qr_metadatas := Some [];
|}.

Definition hollow_query_collection (col : Collection) (query_text : string) (k : Z)
    : result QueryResults :=
  Ok hollow_query_results.

(** Query results without a "documents" key. *)
Definition keyless_query_results : QueryResults := {|
  qr_ids := Some [["c1"]];
  qr_documents := None;
  qr_metadatas := Some [[Some meta_guide]];
|}.

Definition keyless_query_collection (col : Collection) (query_text : string) (k : Z)
    : result QueryResults :=
  Ok keyless_query_results.

(** Query results in which no chunk names a source. *)
Definition sourceless_query_results : QueryResults := {|
  qr_ids := Some [["c4"; "c5"]];
  qr_documents := Some [["Loose notes."; "More notes."]];
  qr_metadatas := Some [[Some meta_plain; None]];
|}.

Definition sourceless_query_collection (col : Collection) (query_text : string) (k : Z)
    : result QueryResults :=
  Ok sourceless_query_results.

(** Query results that hold documents only. *)
Definition bare_query_results : QueryResults := {|
  qr_ids := None;
  qr_documents := Some [["Install it."]];
  qr_metadatas := None;
|}.

Definition bare_query_collection (col : Collection) (query_text : string) (k : Z)
    : result QueryResults :=
  Ok bare_query_results.

(** A store that does not open. *)
Definition closed_get_chroma_client (db_directory : string) : result PersistentClient :=
  Raise (StoreUnavailable "permission denied").

(** A streamed run that breaks after two deltas. *)
Definition broken_run_stream (user_input : string) (d : RAGDeps)
    (message_history : list ModelMessage) (n_results temperature : Z)
    : result StreamedRunResult :=
  Ok {| stream_text := ["Install "; "it"];
        stream_failure := Some (AgentUnavailable "connection lost");
        new_messages := [ModelRequest [UserPromptPart user_input];
                         ModelResponse [TextPart "Install it"]] |}.

(** A history with a tool round in it. *)
Definition tool_history : list ModelMessage := [
  ModelRequest [SystemPromptPart "You are a RAG assistant."; UserPromptPart "hello"];
  ModelResponse [ToolCallPart "retrieve" "hello"];
  ModelRequest [ToolReturnPart "retrieve" "Install it."];
  ModelResponse [TextPart "Hi."]].

Definition tool_session : SessionState := {|
  messages := Some tool_history;
  agent_deps := Some sample_deps;
|}.

(** A store with three collections; "blog" cannot be counted. *)
Definition store_collections : list CollectionObj := [
  {| co_name := "docs"; co_id := "1" |};
  {| co_name := "blog"; co_id := "2" |};
  {| co_name := "Docs"; co_id := "3" |}].

Definition store_client (path : string) : result PersistentClient :=
  if decide (path = "./chroma_db") then Ok {| client_path := path |}
  else Raise (StoreUnavailable ("not a store: " +:+ path)).

Definition store_list (c : PersistentClient) : result (list CollectionObj) :=
  Ok store_collections.

Definition store_get_collection (c : PersistentClient) (name : string)
    : result CollectionObj :=
  match find_exact name store_collections with
  | Some col => Ok col
  | None => Raise (QueryFailure ("no collection " +:+ name))
  end.

Definition store_count (col : CollectionObj) : result Z :=
  if decide (co_name col = "blog") then Raise (QueryFailure "corrupt index")
  else Ok 3.

Definition store_get (col : CollectionObj) : result GetResults :=
  if decide (co_name col = "docs") then Ok plain_results
  else Ok {| g_ids := []; g_documents := []; g_metadatas := [] |}.

Definition store_isdir (path : string) : bool := bool_decide (path = "./chroma_db").

(** An export that exists already. *)
Definition old_csv : Csv := [["id"; "document"]; ["z"; "kept"]].

End MoreSamples.


(** * Properties *)

(** ** The trace monad *)

Module RagAgentFacts.
Import RagAgent.

Lemma trace_bind {A B} (m : M A) (f : A → M B) :
  trace (m ≫= f) =
  trace m ++ match outcome m with Ok a => trace (f a) | Raise _ => [] end.
Proof.
  destruct m as [t [a|e]]; unfold mbind, M_bind, bind, trace, outcome; simpl.
  - by destruct (f a).
  - by rewrite app_nil_r.
Qed.

Lemma outcome_bind {A B} (m : M A) (f : A → M B) :
  outcome (m ≫= f) =
  match outcome m with Ok a => outcome (f a) | Raise e => Raise e end.
Proof.
  destruct m as [t [a|e]]; unfold mbind, M_bind, bind, outcome; simpl; [|done].
  by destruct (f a).
Qed.

Lemma query_counts_app t1 t2 :
  query_counts (t1 ++ t2) = query_counts t1 ++ query_counts t2.
Proof. apply omap_app. Qed.

Lemma tool_iterations_app t1 t2 :
  tool_iterations (t1 ++ t2) = (tool_iterations t1 + tool_iterations t2)%nat.
Proof. unfold tool_iterations. by rewrite filter_app, length_app. Qed.

Section Facts.

Variable get_chroma_client : string → result PersistentClient.
Variable get_or_create_collection :
  PersistentClient → string → string → result Collection.
Variable query_collection : Collection → string → Z → result QueryResults.
Variable format_results_as_context : QueryResults → string.
Variable agent_run : string → RAGDeps → result string.

Local Abbreviation retrieve :=
  (retrieve get_or_create_collection query_collection format_results_as_context).
Local Abbreviation call_retrieve :=
  (call_retrieve get_or_create_collection query_collection format_results_as_context).
Local Abbreviation agent_turn :=
  (agent_turn get_or_create_collection query_collection format_results_as_context).
Local Abbreviation run_rag_agent := (run_rag_agent get_chroma_client agent_run).

(** One invocation of the tool queries at most once, with the count of the
    dependencies, whatever the search query. *)
Lemma retrieve_query_counts context search_query :
  query_counts (trace (retrieve context search_query)) =
  match get_or_create_collection (chroma_client (deps context))
          (collection_name (deps context)) (embedding_model (deps context)) with
  | Ok _ => [n_results (deps context)]
  | Raise _ => []
  end.
Proof.
  unfold RagAgent.retrieve, trace. cbn.
  destruct (get_or_create_collection _ _ _) as [col|e]; cbn; [|done].
  destruct (query_collection col search_query _) as [qr|e]; cbn; [|done].
  by destruct (index0 _).
Qed.

(** Every invocation of the tool is one iteration. *)
Lemma retrieve_iterations context search_query :
  tool_iterations (trace (retrieve context search_query)) = 1%nat.
Proof.
  unfold RagAgent.retrieve, trace. cbn.
  destruct (get_or_create_collection _ _ _) as [col|e]; cbn; [|done].
  destruct (query_collection col search_query _) as [qr|e]; cbn; [|done].
  by destruct (index0 _).
Qed.

(** The same holds along a whole turn, however many tool calls the model
    issues. *)
Lemma agent_turn_query_counts fuel llm context messages :
  Forall (λ k, k = n_results (deps context))
    (query_counts (trace (agent_turn fuel llm context messages))).
Proof.
  revert messages. induction fuel as [|fuel IH]; intros messages;
    cbn [RagAgent.agent_turn].
  - constructor.
  - destruct (llm messages) as [args|text]; [|constructor].
    rewrite trace_bind, query_counts_app. apply Forall_app. split.
    + unfold RagAgent.call_retrieve. rewrite retrieve_query_counts.
      destruct (get_or_create_collection _ _ _); repeat constructor.
    + destruct (outcome _); [apply IH|constructor].
Qed.

(** C1. An invocation of the [retrieve] tool that gets its collection queries
    once, with the result count [n_results] of the agent dependencies, and
    along every turn each query carries that count; the tool-call arguments
    consist of the search query alone, and no choice of them changes the counts
    passed. *)
Theorem retrieve_count_comes_from_deps fuel llm context messages :
  (∀ args,
     query_counts (trace (call_retrieve context args)) =
     match get_or_create_collection (chroma_client (deps context))
             (collection_name (deps context)) (embedding_model (deps context)) with
     | Ok _ => [n_results (deps context)]
     | Raise _ => []
     end)
  ∧ Forall (λ k, k = n_results (deps context))
      (query_counts (trace (agent_turn fuel llm context messages)))
  ∧ (∀ args, args = {| search_query := search_query args |})
  ∧ (∀ args1 args2,
       query_counts (trace (call_retrieve context args1)) =
       query_counts (trace (call_retrieve context args2))).
Proof.
  split; [|split; [apply agent_turn_query_counts|split]].
  - intros [q]. unfold RagAgent.call_retrieve. by rewrite retrieve_query_counts.
  - by intros [q].
  - intros [q1] [q2]. unfold RagAgent.call_retrieve.
    by rewrite !retrieve_query_counts.
Qed.

Lemma tool_call_parts_app m1 m2 :
  tool_call_parts (m1 ++ m2) = (tool_call_parts m1 + tool_call_parts m2)%nat.
Proof. unfold tool_call_parts. by rewrite flat_map_app, filter_app, length_app. Qed.

Lemma tool_call_parts_round name q out :
  tool_call_parts [ModelResponse [ToolCallPart name q];
                   ModelRequest [ToolReturnPart name out]] = 1%nat.
Proof. reflexivity. Qed.

Lemma tool_call_parts_answer text :
  tool_call_parts [ModelResponse [TextPart text]] = 0%nat.
Proof. reflexivity. Qed.

(** A turn that returns has run the tool once for every tool-call part it
    added to the messages, fewer times than the request limit, and ends with
    the answer the model gave. *)
Lemma agent_turn_completes limit llm context messages text messages' :
  outcome (agent_turn limit llm context messages) = Ok (text, messages') →
  (∃ before, messages' = before ++ [ModelResponse [TextPart text]]
             ∧ llm before = FinalAnswer text)
  ∧ tool_call_parts messages' =
    (tool_call_parts messages
     + tool_iterations (trace (agent_turn limit llm context messages)))%nat
  ∧ (tool_iterations (trace (agent_turn limit llm context messages)) < limit)%nat.
Proof.
  revert messages. induction limit as [|limit IH]; intros messages;
    cbn [RagAgent.agent_turn]; [done|].
  destruct (llm messages) as [args|answer] eqn:Hllm.
  - rewrite outcome_bind, trace_bind, tool_iterations_app.
    unfold RagAgent.call_retrieve. rewrite retrieve_iterations.
    destruct (outcome (retrieve context (search_query args))) as [out|e]; [|done].
    intros H. destruct (IH _ H) as (Hlast & Hparts & Hlt).
    split; [done|]. split; [|lia].
    rewrite Hparts, tool_call_parts_app, tool_call_parts_round. lia.
  - intros [= <- <-]. split; [by exists messages|].
    rewrite tool_call_parts_app, tool_call_parts_answer.
    change (tool_iterations (trace (ret _))) with 0%nat. split; lia.
Qed.

(** The tool never runs more often than the request limit allows. *)
Lemma agent_turn_bounded limit llm context messages :
  (tool_iterations (trace (agent_turn limit llm context messages)) ≤ limit)%nat.
Proof.
  revert messages. induction limit as [|limit IH]; intros messages;
    cbn [RagAgent.agent_turn]; [done|].
  destruct (llm messages) as [args|answer]; [|cbn; lia].
  rewrite trace_bind, tool_iterations_app.
  unfold RagAgent.call_retrieve. rewrite retrieve_iterations.
  destruct (outcome (retrieve context (search_query args))) as [out|e].
  - specialize (IH (messages ++
      [ModelResponse [ToolCallPart "retrieve" (search_query args)];
       ModelRequest [ToolReturnPart "retrieve" out]])). lia.
  - cbn. lia.
Qed.

(** The loop records nothing of its own: every event of a turn is an event of
    one of its calls of the tool. *)
Lemma agent_turn_records_only_retrieve limit llm context messages ev :
  ev ∈ trace (agent_turn limit llm context messages) →
  ∃ args, ev ∈ trace (call_retrieve context args).
Proof.
  revert messages. induction limit as [|limit IH]; intros messages;
    cbn [RagAgent.agent_turn].
  - intros H. by apply elem_of_nil in H.
  - destruct (llm messages) as [args|answer].
    + rewrite trace_bind. intros [H|H]%elem_of_app; [by exists args|].
      destruct (outcome (call_retrieve context args)) as [out|e].
      * by apply IH in H.
      * by apply elem_of_nil in H.
    + intros H. by apply elem_of_nil in H.
Qed.

(** A model that asks for the tool at every request, with a tool that succeeds
    on what it asks, uses up the request limit: the tool runs once per request
    allowed, and the turn fails at the limit. *)
Lemma agent_turn_hits_limit limit llm context messages :
  (∀ m, ∃ args, llm m = ToolCall args) →
  (∀ m args, llm m = ToolCall args → is_Ok (outcome (call_retrieve context args))) →
  tool_iterations (trace (agent_turn limit llm context messages)) = limit
  ∧ outcome (agent_turn limit llm context messages)
    = Raise (UsageLimitExceeded "The next request would exceed the request_limit").
Proof.
  intros Hask Hok. revert messages.
  induction limit as [|limit IH]; intros messages; cbn [RagAgent.agent_turn].
  - split; reflexivity.
  - destruct (Hask messages) as [args Hargs]. rewrite Hargs.
    rewrite trace_bind, outcome_bind, tool_iterations_app.
    specialize (Hok messages args Hargs). revert Hok.
    unfold RagAgent.call_retrieve. rewrite retrieve_iterations.
    destruct (outcome (retrieve context (search_query args))) as [out|e]; [|done].
    intros _.
    destruct (IH (messages ++
      [ModelResponse [ToolCallPart "retrieve" (search_query args)];
       ModelRequest [ToolReturnPart "retrieve" out]])) as [Hn Hout].
    split; [by rewrite Hn|exact Hout].
Qed.

(** C3, amended. [run_rag_agent] never returns an answer and never invokes the
    agent: when [get_chroma_client] returns a client, the construction of
    [RAGDeps] raises [TypeError] because [n_results] is not supplied, and when
    [get_chroma_client] itself raises, that exception propagates. *)
Theorem run_rag_agent_never_answers question collection_name db_directory
    embedding_model n_results :
  let run := run_rag_agent question collection_name db_directory
               embedding_model n_results in
  outcome run =
    match get_chroma_client db_directory with
    | Ok _ => Raise (TypeError
        "RAGDeps.__init__() missing 1 required positional argument: 'n_results'")
    | Raise e => Raise e
    end
  ∧ filter (λ ev, Is_true (is_agent_run ev)) (trace run) = []
  ∧ is_Ok (outcome run) = false.
Proof.
  unfold RagAgent.run_rag_agent, trace, outcome. cbn.
  by destruct (get_chroma_client db_directory).
Qed.

End Facts.

(** C3, as stated, fails where the store cannot be opened: the exception is
    the one of [get_chroma_client], not a [TypeError]. *)
Lemma run_rag_agent_store_error :
  outcome (run_rag_agent Samples.sample_get_chroma_client Samples.sample_agent_run
             "What is RAG?" "docs" "/tmp/nowhere" "all-MiniLM-L6-v2" 5)
  = Raise (StoreUnavailable "not a store: /tmp/nowhere")
  ∧ ¬ ∃ msg,
      outcome (run_rag_agent Samples.sample_get_chroma_client Samples.sample_agent_run
                 "What is RAG?" "docs" "/tmp/nowhere" "all-MiniLM-L6-v2" 5)
      = Raise (TypeError msg).
Proof. split; [reflexivity|]. intros [msg H]. vm_compute in H. discriminate H. Qed.




End RagAgentFacts.


(** ** The session and the page *)

Module StreamlitFacts.
Import RagAgent StreamlitApp.

Lemma append_cons x (a b : string) : String x a +:+ b = String x (a +:+ b).
Proof. reflexivity. Qed.

Lemma append_assoc (a b c : string) : (a +:+ b) +:+ c = a +:+ (b +:+ c).
Proof. induction a as [|x a IH]; [done|]. by rewrite !append_cons, IH. Qed.

Lemma append_empty_r (a : string) : a +:+ "" = a.
Proof. induction a as [|x a IH]; [done|]. by rewrite append_cons, IH. Qed.

Lemma foldl_append (acc : string) (deltas : list string) :
  foldl String.append acc deltas = acc +:+ foldr String.append "" deltas.
Proof.
  revert acc. induction deltas as [|d deltas IH]; intros acc; cbn [foldl foldr].
  - by rewrite append_empty_r.
  - by rewrite IH, append_assoc.
Qed.

(** [full_response] is the concatenation of the deltas in emission order. *)
Lemma assemble_concat (deltas : list string) :
  assemble deltas = foldr String.append "" deltas.
Proof. unfold assemble. by rewrite foldl_append. Qed.

(** *** The displayed sources *)

Lemma source_of_Some meta x :
  source_of meta = Some x ↔ x ≠ "" ∧ ∃ m, meta = Some m ∧ m !! "source" = Some x.
Proof.
  unfold source_of. destruct meta as [m|].
  2: { split; [done|]. by intros (_ & m & [=] & _). }
  destruct (decide (m = ∅)) as [->|Hm].
  { split; [done|]. intros (_ & m & [= <-] & H). by rewrite lookup_empty in H. }
  destruct (m !! "source") as [src|] eqn:Hsrc.
  2: { split; [done|]. intros (_ & m' & [= <-] & H). by rewrite Hsrc in H. }
  destruct (decide (src = "")) as [->|Hne]; split.
  - done.
  - intros (Hx & m' & [= <-] & H). rewrite Hsrc in H. by injection H as <-.
  - intros [= <-]. split; [done|]. by exists m.
  - intros (_ & m' & [= <-] & H). by rewrite Hsrc in H.
Qed.

Lemma elem_of_source_urls_of metadatas x :
  x ∈ source_urls_of metadatas
  ↔ x ≠ "" ∧ ∃ m, Some m ∈ metadatas ∧ m !! "source" = Some x.
Proof.
  unfold source_urls_of.
  rewrite merge_sort_Permutation, elem_of_elements, elem_of_list_to_set,
    list_elem_of_omap.
  split.
  - intros (meta & Hin & Hsrc). apply source_of_Some in Hsrc as (Hne & m & -> & Hm).
    eauto.
  - intros (Hne & m & Hin & Hm). exists (Some m). split; [done|].
    apply source_of_Some. eauto.
Qed.

Lemma source_urls_of_Sorted metadatas : Sorted String.le (source_urls_of metadatas).
Proof. apply (Sorted_merge_sort String.le). Qed.

Lemma source_urls_of_NoDup metadatas : NoDup (source_urls_of metadatas).
Proof.
  unfold source_urls_of. rewrite merge_sort_Permutation. apply NoDup_elements.
Qed.

(** Runs the script monad on the state at hand. *)
Ltac run_script :=
  repeat (unfold mbind, U_bind, u_bind, get_state, put_state, u_ret, rerun, stop, raise,
            draw, draw_all, lift_result, try_except, attr_agent_deps,
            attr_messages, page, session, ending;
          cbn).

Section Facts.

Variable get_chroma_client : string → result PersistentClient.
Variable get_or_create_collection :
  PersistentClient → string → string → result Collection.
Variable query_collection : Collection → string → Z → result QueryResults.
Variable list_collections : PersistentClient → result (list string).
Variable run_stream :
  string → RAGDeps → list ModelMessage → Z → Z → result StreamedRunResult.

Local Abbreviation select := (select get_chroma_client).
Local Abbreviation main :=
  (main get_chroma_client get_or_create_collection query_collection run_stream).
Local Abbreviation script :=
  (script get_chroma_client get_or_create_collection query_collection
     list_collections run_stream).
Local Abbreviation stream_answer := (stream_answer run_stream).
Local Abbreviation display_sources_body :=
  (display_sources_body get_or_create_collection query_collection).
Local Abbreviation display_sources :=
  (display_sources get_or_create_collection query_collection).

(** A selection that differs from the installed dependencies: a bundle built
    anew from the selection is installed, the history is emptied, and a rerun is
    asked for. *)
Lemma select_reset w s d client :
  agent_deps s = Some d →
  get_chroma_client "./chroma_db" = Ok client →
  collection_name d ≠ selected_collection_name w
  ∨ n_results d ≠ n_results_to_retrieve w →
  select w s =
    ([], {| messages := Some [];
            agent_deps := Some {| chroma_client := client;
                                  collection_name := selected_collection_name w;
                                  embedding_model := "all-MiniLM-L6-v2";
                                  n_results := n_results_to_retrieve w |} |},
     Rerun).
Proof.
  intros Hd Hc Hne. unfold StreamlitApp.select, get_agent_deps. rewrite Hc.
  destruct s as [[h|] deps]; simpl in Hd; subst deps; run_script.
  all: rewrite !bool_decide_decide.
  all: destruct Hne as [Hne|Hne].
  all: repeat (case_decide; simplify_eq/=); try done.
Qed.

(** A selection that agrees with the installed dependencies: they stay, and
    so does the history. *)
Lemma select_keep w s d :
  agent_deps s = Some d →
  collection_name d = selected_collection_name w →
  n_results d = n_results_to_retrieve w →
  select w s = ([], {| messages := Some (history s); agent_deps := Some d |}, Done tt).
Proof.
  intros Hd Hcol Hn. unfold StreamlitApp.select, history.
  destruct s as [[h|] deps]; simpl in Hd; subst deps; run_script.
  all: rewrite Hcol, Hn, !bool_decide_decide.
  all: repeat (case_decide; simplify_eq/=); done.
Qed.

(** C2. On a run of the script that passes the module-level guard (the store
    opens and lists at least one collection), if the selected collection name
    or result count differs from the installed dependencies, a bundle built
    anew from the selection is installed, the history is emptied and a rerun
    is asked for.  When the selection agrees with the installed dependencies,
    [select] leaves them and the history as they are, whatever the
    temperature, and so does a whole run without user input. *)
Theorem selection_change_resets_session :
  (∀ w s d client name names,
     agent_deps s = Some d →
     get_chroma_client "./chroma_db" = Ok client →
     list_collections client = Ok (name :: names) →
     collection_name d ≠ selected_collection_name w
     ∨ n_results d ≠ n_results_to_retrieve w →
     session (script w s) =
       {| messages := Some [];
          agent_deps := Some {| chroma_client := client;
                                collection_name := selected_collection_name w;
                                embedding_model := "all-MiniLM-L6-v2";
                                n_results := n_results_to_retrieve w |} |}
     ∧ ending (script w s) = Rerun)
  ∧ (∀ w s d t,
       agent_deps s = Some d →
       collection_name d = selected_collection_name w →
       n_results d = n_results_to_retrieve w →
       (agent_deps (session (select (with_temperature t w) s)) = agent_deps s
        ∧ history (session (select (with_temperature t w) s)) = history s
        ∧ ending (select (with_temperature t w) s) = Done tt)
       ∧ (user_input w = None →
          agent_deps (session (script (with_temperature t w) s)) = agent_deps s
          ∧ history (session (script (with_temperature t w) s)) = history s)).
Proof.
  split.
  - intros w s d client name names Hd Hc Hl Hne. unfold StreamlitApp.script.
    change DB_DIR with "./chroma_db". rewrite Hc, Hl.
    unfold StreamlitApp.main, mbind, U_bind, u_bind, draw, session, ending.
    by rewrite (select_reset w s d client Hd Hc Hne).
  - intros w s d t Hd Hcol Hn. split.
    + rewrite (select_keep (with_temperature t w) s d Hd Hcol Hn).
      unfold session, ending. cbn. by rewrite Hd.
    + intros Hin. unfold StreamlitApp.script.
      destruct (get_chroma_client DB_DIR) as [client|e]; [|done].
      destruct (list_collections client) as [[|name names]|e]; [done| |done].
      unfold StreamlitApp.main, mbind, U_bind, u_bind, draw, session.
      rewrite (select_keep (with_temperature t w) s d Hd Hcol Hn).
      unfold display_history, turn. cbn [with_temperature user_input].
      rewrite Hin. run_script. by rewrite Hd.
Qed.

(** The placeholder is drawn once per delta. *)
Lemma length_placeholder_updates full_response deltas :
  length (placeholder_updates full_response deltas) = length deltas.
Proof.
  revert full_response. induction deltas as [|d deltas IH]; intros acc;
    cbn [placeholder_updates length]; [done|]. by rewrite IH.
Qed.

(** A turn whose stream ends without an exception: the page shows every
    partial text and then the whole one, the history grows by exactly what
    [new_messages()] of the run returns, and the value is the concatenation
    of the deltas in emission order. *)
Lemma stream_answer_run user_input n t s d h r :
  agent_deps s = Some d →
  messages s = Some h →
  run_stream user_input d h n t = Ok r →
  stream_failure r = None →
  stream_answer user_input n t s =
    (placeholder_updates "" (stream_text r)
       ++ [UiPlaceholder (foldr String.append "" (stream_text r))],
     {| messages := Some (h ++ new_messages r); agent_deps := Some d |},
     Done (foldr String.append "" (stream_text r))).
Proof.
  intros Hd Hh Hrun Hfail.
  unfold StreamlitApp.stream_answer, run_agent_with_streaming.
  destruct s as [msgs deps].
  simpl in Hd, Hh. subst msgs deps. run_script. rewrite Hrun. run_script.
  rewrite Hfail. run_script. by rewrite assemble_concat.
Qed.


(** The body of the [try] leaves the session as it is and draws nothing
    before it raises. *)
Lemma display_sources_body_frame user_input n s :
  session (display_sources_body user_input n s) = s
  ∧ (∀ e, ending (display_sources_body user_input n s) = Raised e →
          page (display_sources_body user_input n s) = [])
  ∧ ending (display_sources_body user_input n s) ≠ Rerun.
Proof.
  unfold StreamlitApp.display_sources_body. destruct s as [msgs [d|]]; run_script;
    [|done].
  destruct (get_or_create_collection _ _ _) as [col|e1]; run_script; [|done].
  destruct (query_collection col user_input n) as [qr|e2]; run_script; [|done].
  destruct (index0 _) as [metadatas|e3]; run_script; [|done].
  case_bool_decide; run_script; done.
Qed.

(** An exception of the body is caught: the page shows the inline error, the
    session is what it was, and the block ends normally. *)
Lemma display_sources_catches user_input n s e :
  ending (display_sources_body user_input n s) = Raised e →
  display_sources user_input n s
  = ([UiError ("Error retrieving sources: " +:+ exn_str e)], s, Done tt).
Proof.
  intros He.
  destruct (display_sources_body_frame user_input n s) as (Hs & Hp & _).
  specialize (Hp e He). revert He Hs Hp.
  unfold StreamlitApp.display_sources, try_except, page, session, ending.
  destruct (display_sources_body user_input n s) as [[o s'] r]; cbn.
  intros -> -> ->. done.
Qed.

(** A failing query is one way for the body to raise. *)
Lemma display_sources_body_query_failure user_input n s d col e :
  agent_deps s = Some d →
  get_or_create_collection (chroma_client d) (collection_name d) (embedding_model d)
    = Ok col →
  query_collection col user_input n = Raise e →
  ending (display_sources_body user_input n s) = Raised e.
Proof.
  intros Hd Hcol Hq. unfold StreamlitApp.display_sources_body.
  destruct s as [msgs deps]. simpl in Hd. subst deps. run_script.
  rewrite Hcol. run_script. rewrite Hq. by run_script.
Qed.

(** C9. After the answer has streamed, the block re-runs the query with the
    user's input and the selected count; this is the last retrieval of the
    turn.  What the page lists are the sources of its results: sorted, without
    duplicates, and exactly the non-empty values found under "source". *)
Theorem displayed_sources_sorted_distinct user_input n s d col qr metadatas :
  agent_deps s = Some d →
  get_or_create_collection (chroma_client d) (collection_name d) (embedding_model d)
    = Ok col →
  query_collection col user_input n = Ok qr →
  index0 (get_or_default (qr_metadatas qr)) = Ok metadatas →
  page (display_sources user_input n s)
    = (if bool_decide (source_urls_of metadatas = []) then []
       else [UiExpander "Retrieved Sources"
               ((λ url, "- " +:+ url) <$> source_urls_of metadatas)])
  ∧ Sorted String.le (source_urls_of metadatas)
  ∧ NoDup (source_urls_of metadatas)
  ∧ ∀ x, x ∈ source_urls_of metadatas
         ↔ x ≠ "" ∧ ∃ m, Some m ∈ metadatas ∧ m !! "source" = Some x.
Proof.
  intros Hd Hcol Hq Hm. split; [|split; [|split]].
  - unfold StreamlitApp.display_sources, StreamlitApp.display_sources_body.
    destruct s as [msgs deps]. simpl in Hd. subst deps. run_script.
    rewrite Hcol. run_script. rewrite Hq. run_script. rewrite Hm. run_script.
    by case_bool_decide.
  - apply source_urls_of_Sorted.
  - apply source_urls_of_NoDup.
  - apply elem_of_source_urls_of.
Qed.

(** C8. In a turn whose answer has streamed and been committed, an exception
    raised while the sources are displayed is shown as an inline error after
    the answer; the session is the one committed by the stream, and the turn
    ends normally. *)
Theorem turn_survives_display_failure w s text o1 s1 full_response e :
  user_input w = Some text →
  text ≠ "" →
  stream_answer text (n_results_to_retrieve w) (selected_temperature w) s
    = (o1, s1, Done full_response) →
  ending (display_sources_body text (n_results_to_retrieve w) s1) = Raised e →
  turn get_or_create_collection query_collection run_stream w s
  = (UiChatUser text :: o1
       ++ [UiError ("Error retrieving sources: " +:+ exn_str e)],
     s1, Done tt).
Proof.
  intros Hw Hne Hstream He. unfold StreamlitApp.turn. rewrite Hw.
  rewrite bool_decide_false by done.
  unfold mbind, U_bind, u_bind, draw. rewrite Hstream.
  by rewrite (display_sources_catches _ _ _ _ He).
Qed.

End Facts.

Import Samples.

Lemma selection_change_resets_session_witness :
  (session (script sample_get_chroma_client sample_get_or_create_collection
              sample_query_collection sample_list_collections
              sample_run_stream blog_widgets sample_session) =
     {| messages := Some [];
        agent_deps :=
          Some {| chroma_client := chroma_client sample_deps;
                  collection_name := selected_collection_name blog_widgets;
                  embedding_model := "all-MiniLM-L6-v2";
                  n_results := n_results_to_retrieve blog_widgets |} |}
   ∧ ending (script sample_get_chroma_client sample_get_or_create_collection
               sample_query_collection sample_list_collections
               sample_run_stream blog_widgets sample_session) = Rerun)
  ∧ (agent_deps (session (select sample_get_chroma_client
                            (with_temperature 3 sample_widgets) sample_session))
     = agent_deps sample_session
     ∧ history (session (select sample_get_chroma_client
                           (with_temperature 3 sample_widgets) sample_session))
       = history sample_session
     ∧ ending (select sample_get_chroma_client
                 (with_temperature 3 sample_widgets) sample_session) = Done tt)
  ∧ (agent_deps (session (script sample_get_chroma_client
                            sample_get_or_create_collection sample_query_collection
                            sample_list_collections sample_run_stream
                            (with_temperature 3 blog_widgets) idle_session))
     = agent_deps idle_session
     ∧ history (session (script sample_get_chroma_client
                           sample_get_or_create_collection sample_query_collection
                           sample_list_collections sample_run_stream
                           (with_temperature 3 blog_widgets) idle_session))
       = history idle_session).
Proof.
  split; [|split].
  - apply (proj1 (selection_change_resets_session sample_get_chroma_client
                    sample_get_or_create_collection sample_query_collection
                    sample_list_collections sample_run_stream)
             blog_widgets sample_session sample_deps (chroma_client sample_deps)
             "blog" ["docs"]).
    + reflexivity.
    + reflexivity.
    + reflexivity.
    + left. vm_compute. discriminate.
  - apply (proj2 (selection_change_resets_session sample_get_chroma_client
                    sample_get_or_create_collection sample_query_collection
                    sample_list_collections sample_run_stream)
             sample_widgets sample_session sample_deps 3); reflexivity.
  - apply (proj2 (selection_change_resets_session sample_get_chroma_client
                    sample_get_or_create_collection sample_query_collection
                    sample_list_collections sample_run_stream)
             blog_widgets idle_session blog_deps 3); reflexivity.
Defined.

(** The run of the sample page after the knowledge base was switched. *)
Example sample_switch :
  script sample_get_chroma_client sample_get_or_create_collection
    sample_query_collection sample_list_collections sample_run_stream
    blog_widgets sample_session
  = ([UiTitle "ChromaDB Crawl4AI RAG AI Agent"],
     {| messages := Some []; agent_deps := Some blog_deps |}, Rerun).
Proof. vm_compute. reflexivity. Qed.


Lemma turn_survives_display_failure_witness :
  turn sample_get_or_create_collection sample_query_collection sample_run_stream
    long_widgets sample_session
  = (UiChatUser "Please list every installation step for every platform, in order"
       :: page (stream_answer sample_run_stream
                  "Please list every installation step for every platform, in order"
                  5 14 sample_session)
       ++ [UiError ("Error retrieving sources: "
                    +:+ exn_str (EmbeddingFailure
                                   "embedding provider rejected the query"))],
     session (stream_answer sample_run_stream
                "Please list every installation step for every platform, in order"
                5 14 sample_session),
     Done tt).
Proof.
  apply (turn_survives_display_failure sample_get_or_create_collection
           sample_query_collection sample_run_stream long_widgets sample_session
           "Please list every installation step for every platform, in order"
           _ _ "Install it.").
  - reflexivity.
  - discriminate.
  - reflexivity.
  - vm_compute. reflexivity.
Defined.

Lemma displayed_sources_sorted_distinct_witness :
  let metadatas := [Some meta_guide; Some meta_api; Some meta_guide; Some meta_plain] in
  page (display_sources sample_get_or_create_collection sample_query_collection
          "How do I install it?" 5 sample_session)
    = (if bool_decide (source_urls_of metadatas = []) then []
       else [UiExpander "Retrieved Sources"
               ((λ url, "- " +:+ url) <$> source_urls_of metadatas)])
  ∧ Sorted String.le (source_urls_of metadatas)
  ∧ NoDup (source_urls_of metadatas)
  ∧ ∀ x, x ∈ source_urls_of metadatas
         ↔ x ≠ "" ∧ ∃ m, Some m ∈ metadatas ∧ m !! "source" = Some x.
Proof.
  apply (displayed_sources_sorted_distinct sample_get_or_create_collection
           sample_query_collection "How do I install it?" 5 sample_session
           sample_deps
           {| col_client := {| client_path := "./chroma_db" |}; col_name := "docs";
              col_embedding_model := "all-MiniLM-L6-v2" |}
           sample_query_results); reflexivity.
Defined.

(** What the page lists for the sample store. *)
Example sample_sources_shown :
  page (display_sources sample_get_or_create_collection sample_query_collection
          "How do I install it?" 5 sample_session)
  = [UiExpander "Retrieved Sources"
       ["- https://docs.example/api"; "- https://docs.example/guide"]].
Proof. vm_compute. reflexivity. Qed.

End StreamlitFacts.


(** ** The retrieval engine and the formatter *)

Module EngineFacts.
Import Engine.

Section Facts.

Variable vector : Type.
Variable score : Type.
Variable closer_eq : score → score → bool.
Variable distance : vector → vector → score.
Variable embed : string → string → option vector.

Local Abbreviation query := (query closer_eq distance embed).

(** Ranking keeps every item. *)
Lemma length_ranked (q : vector) (items : list (Item vector)) :
  length (merge_sort (nearer closer_eq) (rank distance q <$> items)) = length items.
Proof. by rewrite merge_sort_Permutation, length_fmap. Qed.

(** C4. For [k >= 1], on a collection whose index is sound and whose query
    text can be embedded, [query] returns a result set, and its length is the
    minimum of [k] and the number of items; on an empty collection that result
    set is the empty one, returned as a value. *)
Theorem query_length_is_min (c : StoredCollection vector) queryText k q :
  1 ≤ k →
  embed (sc_embedding_function c) queryText = Some q →
  sc_index_ok c = true →
  ∃ results,
    query c queryText k = Ok results
    ∧ Z.of_nat (length results) = Z.min k (Z.of_nat (length (sc_items c)))
    ∧ (sc_items c = [] → query c queryText k = Ok []).
Proof.
  intros Hk Hq Hok. unfold Engine.query. rewrite bool_decide_false by lia.
  rewrite Hq, Hok. eexists. split; [done|]. split.
  - rewrite length_take, length_ranked. lia.
  - intros ->. by destruct (Z.to_nat k).
Qed.

(** The formatter of an empty result set. *)
Lemma format_nil : format (score := score) [] = "".
Proof. reflexivity. Qed.

(** Section 4.1: a second [getOrCreate] of the same name returns the same
    collection and changes nothing. *)
Lemma getOrCreate_idempotent name ef (w : World vector) :
  getOrCreate name ef (getOrCreate name ef w).2
  = ((getOrCreate name ef w).1, (getOrCreate name ef w).2).
Proof.
  unfold getOrCreate. destruct (w_store w !! name) as [c|] eqn:E; cbn.
  - by rewrite E.
  - by rewrite lookup_insert_eq.
Qed.

End Facts.

Import Samples.

Lemma query_length_is_min_witness :
  ∃ results,
    query Z.leb toy_distance toy_embed toy_collection "How do I install it?" 5
      = Ok results
    ∧ Z.of_nat (length results)
      = Z.min 5 (Z.of_nat (length (sc_items toy_collection)))
    ∧ (sc_items toy_collection = [] →
       query Z.leb toy_distance toy_embed toy_collection "How do I install it?" 5
         = Ok []).
Proof.
  apply (query_length_is_min Z Z Z.leb toy_distance toy_embed toy_collection
           "How do I install it?" 5 20); [lia | reflexivity | reflexivity].
Defined.

(** Three items and [k = 5]: three results, nearest first. *)
Example toy_query_ranked :
  res_id <$> default [] (match query Z.leb toy_distance toy_embed toy_collection
                                 "How do I install it?" 5 with
                         | Ok rs => Some rs | Raise _ => None end)
  = ["c2"; "c3"; "c1"].
Proof. vm_compute. reflexivity. Qed.

(** What the model reads for the toy results. *)
Example toy_format :
  format toy_results
  = "Loose notes." +:+ nl +:+ nl
    +:+ "Source: https://docs.example/guide" +:+ nl +:+ "Install it.".
Proof. vm_compute. reflexivity. Qed.

End EngineFacts.


(** ** The context formatter *)

Module FormatterFacts.
Import Formatter.

Lemma dict_get_None (d : PyDict) key : key ∉ d.*1 → dict_get d key = None.
Proof.
  induction d as [|[k v] d IH]; [done|]. cbn. intros Hk.
  apply not_elem_of_cons in Hk as [Hne Hk]. rewrite decide_False by done. auto.
Qed.

(** Equal dicts answer every [get] alike, and conversely. *)
Lemma dict_eq_get (d1 d2 : PyDict) :
  dict_eq d1 d2 ↔ ∀ key, dict_get d1 key = dict_get d2 key.
Proof.
  unfold dict_eq. rewrite Forall_forall. split; [|by auto].
  intros H key. destruct (decide (key ∈ d1.*1 ++ d2.*1)) as [Hin|Hout]; [by auto|].
  apply not_elem_of_app in Hout as [H1 H2].
  by rewrite !dict_get_None.
Qed.

(** A dict read as a finite map answers as the dict does. *)
Lemma dict_get_list_to_map (d : PyDict) key :
  (list_to_map d : Metadata) !! key = dict_get d key.
Proof.
  induction d as [|[k v] d IH]; [done|]. cbn.
  destruct (decide (k = key)) as [->|Hne].
  - by rewrite lookup_insert_eq.
  - by rewrite lookup_insert_ne.
Qed.

Section Facts.

Variable vector : Type.
Variable score : Type.

Lemma format_entry_eq (r1 r2 : PyResult score) :
  result_eq r1 r2 → format_entry r1 = format_entry r2.
Proof.
  intros (_ & Hdoc & Hmeta & _). unfold format_entry.
  rewrite (proj1 (dict_eq_get _ _) Hmeta "source"), Hdoc. done.
Qed.

(** The formatter over Python's entries is the formatter of section 4.3 on
    the entries they stand for. *)
Lemma format_as_retrieved (rs : list (PyResult score)) :
  format rs = Engine.format (as_retrieved <$> rs).
Proof.
  unfold format, Engine.format. f_equal. rewrite <- list_fmap_compose.
  apply list_fmap_ext. intros _ r _. unfold format_entry, Engine.format_entry.
  cbn. by rewrite dict_get_list_to_map.
Qed.


End Facts.

Import Samples.


(** The two sample result sets are equal and differ in the order of their
    metadata; a rendering that shows the fields in the order held tells them
    apart, and the formatter does not. *)
Example dump_tells_equal_results_apart :
  result_set_eq py_results py_results_reordered
  ∧ py_results ≠ py_results_reordered
  ∧ dump py_results ≠ dump py_results_reordered
  ∧ format py_results
    = "Loose notes." +:+ Engine.nl +:+ Engine.nl
      +:+ "Source: https://docs.example/guide" +:+ Engine.nl +:+ "Install it.".
Proof.
  split; [apply (bool_decide_unpack _); vm_compute; exact I|].
  split; [discriminate|]. split; [vm_compute; discriminate|].
  vm_compute. reflexivity.
Qed.

End FormatterFacts.


(** ** The CSV export *)

Module CsvExportFacts.
Import CsvExport.

Lemma elem_of_foldl_meta_keys (metadatas : list (option Metadata)) (acc : gset string) k :
  k ∈ foldl (λ keys meta_item,
               match meta_item with
               | Some m => if decide (m = ∅) then keys else keys ∪ dom m
               | None => keys
               end) acc metadatas
  ↔ k ∈ acc ∨ ∃ m, Some m ∈ metadatas ∧ is_Some (m !! k).
Proof.
  revert acc. induction metadatas as [|meta metadatas IH]; intros acc; cbn [foldl].
  - split; [by left|]. intros [H|(m & H & _)]; [done|]. by apply elem_of_nil in H.
  - rewrite IH. split.
    + intros [Hacc|(m & Hin & Hk)].
      * destruct meta as [m|]; [|by left].
        destruct (decide (m = ∅)) as [->|Hne]; [by left|].
        apply elem_of_union in Hacc as [Hacc|Hdom]; [by left|].
        right. exists m. split; [apply elem_of_cons; by left|].
        by apply elem_of_dom.
      * right. exists m. split; [apply elem_of_cons; by right|done].
    + intros [Hacc|(m & Hin & Hk)].
      * left. destruct meta as [m|]; [|done].
        destruct (decide (m = ∅)); [done|]. apply elem_of_union. by left.
      * apply elem_of_cons in Hin as [Heq|Hin].
        -- subst meta. left. destruct (decide (m = ∅)) as [->|Hne].
           ++ rewrite lookup_empty in Hk. by destruct Hk.
           ++ apply elem_of_union. right. by apply elem_of_dom.
        -- right. eauto.
Qed.

(** The keys collected are those of the metadata dicts, and no others. *)
Lemma elem_of_all_meta_keys metadatas k :
  k ∈ all_meta_keys metadatas ↔ ∃ m, Some m ∈ metadatas ∧ is_Some (m !! k).
Proof.
  unfold all_meta_keys. rewrite elem_of_foldl_meta_keys. split; [|by right].
  intros [H|H]; [|done]. by apply elem_of_empty in H.
Qed.

Lemma elem_of_sorted_meta_keys metadatas k :
  k ∈ sorted_meta_keys metadatas ↔ ∃ m, Some m ∈ metadatas ∧ is_Some (m !! k).
Proof.
  unfold sorted_meta_keys.
  by rewrite merge_sort_Permutation, elem_of_elements, elem_of_all_meta_keys.
Qed.

Lemma sorted_meta_keys_Sorted metadatas : Sorted String.le (sorted_meta_keys metadatas).
Proof. apply (Sorted_merge_sort String.le). Qed.

Lemma sorted_meta_keys_NoDup metadatas : NoDup (sorted_meta_keys metadatas).
Proof.
  unfold sorted_meta_keys. rewrite merge_sort_Permutation. apply NoDup_elements.
Qed.

Lemma header_eq metadatas :
  header metadatas = "id" :: "document" :: sorted_meta_keys metadatas.
Proof. by destruct metadatas. Qed.

(** The header row: the two fixed columns, then the sorted union of the
    metadata keys. *)
Lemma export_header r before :
  g_ids r ≠ [] →
  ∃ rows,
    export_collection_to_csv (Ok r) before true
      = Some (("id" :: "document" :: sorted_meta_keys (g_metadatas r)) :: rows)
    ∧ length rows = length (g_ids r).
Proof.
  intros Hids. exists (data_rows r). split.
  - unfold export_collection_to_csv. cbv zeta.
    cbn [default fmap option_fmap option_map].
    destruct (g_ids r) as [|id ids]; [done|]. by rewrite header_eq.
  - unfold data_rows. by rewrite length_imap.
Qed.

(** The row dict after the loop over the keys. *)
Lemma lookup_foldl_insert (m : Metadata) (keys : list string) (row : Row) k :
  foldl (λ row key, <[key := m !! key]> row) row keys !! k
  = if decide (k ∈ keys) then Some (m !! k) else row !! k.
Proof.
  revert row. induction keys as [|key keys IH]; intros row; cbn [foldl].
  - rewrite decide_False; [done|]. apply not_elem_of_nil.
  - rewrite IH. destruct (decide (k ∈ keys)) as [Hin|Hnin].
    + rewrite decide_True; [done|]. apply elem_of_cons. by right.
    + destruct (decide (key = k)) as [->|Hne].
      * rewrite lookup_insert_eq, decide_True; [done|]. apply elem_of_cons. by left.
      * rewrite lookup_insert_ne by done. rewrite decide_False; [done|].
        intros [Heq|Hin]%elem_of_cons; [by subst|done].
Qed.

(** When no metadata key is named like a fixed column, every row holds its
    id, its document, and under each key's column the value of that key in
    the row's metadata, or nothing. *)
Lemma data_row_without_clash r i id :
  g_ids r !! i = Some id →
  "id" ∉ all_meta_keys (g_metadatas r) →
  "document" ∉ all_meta_keys (g_metadatas r) →
  data_rows r !! i
  = Some (id :: default "" (mjoin (g_documents r !! i))
          :: ((λ k, default "" (default ∅ (mjoin (g_metadatas r !! i)) !! k))
                <$> sorted_meta_keys (g_metadatas r))).
Proof.
  intros Hid Hnid Hndoc. unfold data_rows.
  rewrite list_lookup_imap, Hid. cbn [fmap option_fmap option_map].
  f_equal. rewrite header_eq. unfold writerow, row_dict.
  set (m := default ∅ (mjoin (g_metadatas r !! i))).
  set (row0 := <["document":=_]> (<["id":=_]> ∅) : Row).
  assert (Hkeys : ∀ k, k ∈ sorted_meta_keys (g_metadatas r) →
                       k ≠ "id" ∧ k ≠ "document").
  { intros k Hk. unfold sorted_meta_keys in Hk.
    rewrite merge_sort_Permutation, elem_of_elements in Hk.
    split; intros ->; done. }
  assert (H0id : row0 !! "id" = Some (Some id)).
  { unfold row0. rewrite lookup_insert_ne by done. by rewrite lookup_insert_eq. }
  assert (H0doc : row0 !! "document" = Some (mjoin (g_documents r !! i))).
  { unfold row0. by rewrite lookup_insert_eq. }
  assert (H0k : ∀ k, k ≠ "id" → k ≠ "document" → row0 !! k = None).
  { intros k ??. unfold row0. by rewrite !lookup_insert_ne, lookup_empty. }
  assert (Hnid' : "id" ∉ sorted_meta_keys (g_metadatas r)).
  { unfold sorted_meta_keys. by rewrite merge_sort_Permutation, elem_of_elements. }
  assert (Hndoc' : "document" ∉ sorted_meta_keys (g_metadatas r)).
  { unfold sorted_meta_keys. by rewrite merge_sort_Permutation, elem_of_elements. }
  destruct (decide (m = ∅)) as [Hm|Hm].
  - cbn [fmap list_fmap]. rewrite H0id, H0doc. cbn [mjoin option_join default].
    do 2 f_equal. apply list_fmap_ext. intros j k Hk.
    apply list_elem_of_lookup_2 in Hk. destruct (Hkeys k Hk) as [??].
    rewrite H0k by done. by rewrite Hm, lookup_empty.
  - cbn [fmap list_fmap]. rewrite !lookup_foldl_insert.
    rewrite !decide_False by done. rewrite H0id, H0doc.
    cbn [mjoin option_join default]. do 2 f_equal.
    apply list_fmap_ext. intros j k Hk. apply list_elem_of_lookup_2 in Hk.
    rewrite lookup_foldl_insert, decide_True by done. done.
Qed.

(** C10. The export of a collection of two items, the first with a metadata
    key named "document" and the second without metadata: the header repeats
    the column, the first row's document is replaced by the metadata value, and
    the second row shows its document again under the metadata column, where
    it has no value. *)
Theorem export_clash_repeats_fixed_column :
  export_collection_to_csv (Ok Samples.clash_results) None true
  = Some [["id"; "document"; "document"];
          ["a"; "x"; "x"];
          ["b"; "d2"; "d2"]].
Proof. vm_compute. reflexivity. Qed.

(** The export of a collection without such a key. *)
Example export_plain :
  export_collection_to_csv (Ok Samples.plain_results) None true
  = Some [["id"; "document"; "chunk_index"; "source"];
          ["c1"; "Install it."; "0"; "https://docs.example/guide"];
          ["c2"; "Call the API."; "3"; "https://docs.example/api"];
          ["c3"; "Loose notes."; ""; ""]].
Proof. vm_compute. reflexivity. Qed.

End CsvExportFacts.


(** * Further properties *)

(** ** The retrieve tool *)

Module RagAgentMore.
Import RagAgent Views.

Section Facts.

Variable get_or_create_collection :
  PersistentClient → string → string → result Collection.
Variable query_collection : Collection → string → Z → result QueryResults.
Variable format_results_as_context : QueryResults → string.

Local Abbreviation retrieve :=
  (retrieve get_or_create_collection query_collection format_results_as_context).

(** X1. A context returned by the tool is the formatting of the results of
    one query: the one for the model's search query, on the collection of the
    dependencies, with their result count. *)
Theorem retrieve_returns_formatted_query context search_query out :
  outcome (retrieve context search_query) = Ok out →
  ∃ collection query_results,
    get_or_create_collection (chroma_client (deps context))
      (collection_name (deps context)) (embedding_model (deps context))
      = Ok collection
    ∧ query_collection collection search_query (n_results (deps context))
      = Ok query_results
    ∧ out = format_results_as_context query_results
    ∧ filter (λ ev, Is_true (is_format ev)) (trace (retrieve context search_query))
      = [EvFormat query_results].
Proof.
  unfold RagAgent.retrieve, outcome, trace. cbn.
  destruct (get_or_create_collection _ _ _) as [col|e1] eqn:Hcol; cbn; [|done].
  destruct (query_collection col search_query _) as [qr|e2] eqn:Hq; cbn; [|done].
  destruct (index0 _) as [docs|e3]; cbn; [|done].
  intros [= <-]. by exists col, qr.
Qed.

(** X2. Results whose "documents" list is empty make the tool raise
    [IndexError] after the query has succeeded, and nothing is formatted;
    results without a "documents" key count as no document and are formatted. *)
Theorem retrieve_needs_a_documents_list context search_query collection query_results :
  get_or_create_collection (chroma_client (deps context))
    (collection_name (deps context)) (embedding_model (deps context))
    = Ok collection →
  query_collection collection search_query (n_results (deps context))
    = Ok query_results →
  (qr_documents query_results = Some [] →
   outcome (retrieve context search_query)
     = Raise (IndexError "list index out of range")
   ∧ filter (λ ev, Is_true (is_format ev)) (trace (retrieve context search_query))
     = [])
  ∧ (qr_documents query_results = None →
     outcome (retrieve context search_query)
       = Ok (format_results_as_context query_results)
     ∧ EvLog (LogDebugFound (n_results (deps context)) 0)
       ∈ trace (retrieve context search_query)).
Proof.
  intros Hcol Hq. unfold RagAgent.retrieve, outcome, trace. cbn.
  rewrite Hcol. cbn. rewrite Hq. cbn. split; intros ->; cbn.
  - done.
  - split; [done|]. set_solver.
Qed.

End Facts.

Import Samples MoreSamples.

Lemma retrieve_returns_formatted_query_witness :
  ∃ collection query_results,
    sample_get_or_create_collection (chroma_client (deps sample_context))
      (collection_name (deps sample_context)) (embedding_model (deps sample_context))
      = Ok collection
    ∧ sample_query_collection collection "install" (n_results (deps sample_context))
      = Ok query_results
    ∧ "Install it. Call the API. Install it again. Loose notes."
      = sample_format_results_as_context query_results
    ∧ filter (λ ev, Is_true (is_format ev))
        (trace (RagAgent.retrieve sample_get_or_create_collection
                  sample_query_collection sample_format_results_as_context
                  sample_context "install"))
      = [EvFormat query_results].
Proof.
  apply (retrieve_returns_formatted_query sample_get_or_create_collection
           sample_query_collection sample_format_results_as_context
           sample_context "install").
  reflexivity.
Defined.

Lemma retrieve_needs_a_documents_list_witness :
  (outcome (RagAgent.retrieve sample_get_or_create_collection hollow_query_collection
              sample_format_results_as_context sample_context "install")
     = Raise (IndexError "list index out of range")
   ∧ filter (λ ev, Is_true (is_format ev))
       (trace (RagAgent.retrieve sample_get_or_create_collection
                 hollow_query_collection sample_format_results_as_context
                 sample_context "install"))
     = [])
  ∧ (outcome (RagAgent.retrieve sample_get_or_create_collection
                keyless_query_collection sample_format_results_as_context
                sample_context "install")
       = Ok (sample_format_results_as_context keyless_query_results)
     ∧ EvLog (LogDebugFound (n_results (deps sample_context)) 0)
       ∈ trace (RagAgent.retrieve sample_get_or_create_collection
                  keyless_query_collection sample_format_results_as_context
                  sample_context "install")).
Proof.
  split.
  - apply (proj1 (retrieve_needs_a_documents_list sample_get_or_create_collection
                    hollow_query_collection sample_format_results_as_context
                    sample_context "install"
                    {| col_client := {| client_path := "./chroma_db" |};
                       col_name := "docs";
                       col_embedding_model := "all-MiniLM-L6-v2" |}
                    hollow_query_results eq_refl eq_refl)).
    reflexivity.
  - apply (proj2 (retrieve_needs_a_documents_list sample_get_or_create_collection
                    keyless_query_collection sample_format_results_as_context
                    sample_context "install"
                    {| col_client := {| client_path := "./chroma_db" |};
                       col_name := "docs";
                       col_embedding_model := "all-MiniLM-L6-v2" |}
                    keyless_query_results eq_refl eq_refl)).
    reflexivity.
Defined.

End RagAgentMore.


(** ** The script, its guard and its reruns *)

Module StreamlitMore.
Import RagAgent StreamlitApp Views StreamlitFacts.

Section Facts.

Variable get_chroma_client : string → result PersistentClient.
Variable get_or_create_collection :
  PersistentClient → string → string → result Collection.
Variable query_collection : Collection → string → Z → result QueryResults.
Variable list_collections : PersistentClient → result (list string).
Variable run_stream :
  string → RAGDeps → list ModelMessage → Z → Z → result StreamedRunResult.
Variable format_results_as_context : QueryResults → string.

Local Abbreviation retrieve :=
  (retrieve get_or_create_collection query_collection format_results_as_context).
Local Abbreviation select := (select get_chroma_client).
Local Abbreviation stream_answer := (stream_answer run_stream).
Local Abbreviation display_sources_body :=
  (display_sources_body get_or_create_collection query_collection).
Local Abbreviation display_sources :=
  (display_sources get_or_create_collection query_collection).
Local Abbreviation turn := (turn get_or_create_collection query_collection run_stream).
Local Abbreviation main :=
  (main get_chroma_client get_or_create_collection query_collection run_stream).
Local Abbreviation script :=
  (script get_chroma_client get_or_create_collection query_collection
     list_collections run_stream).

(** The three ways [select] ends: the selection agrees with the installed
    dependencies; new dependencies are needed and the store does not open; new
    dependencies are installed. *)
Lemma select_cases w s :
  (∃ d, agent_deps s = Some d
        ∧ collection_name d = selected_collection_name w
        ∧ n_results d = n_results_to_retrieve w
        ∧ select w s = ([], with_history s, Done tt))
  ∨ (∃ e, get_chroma_client "./chroma_db" = Raise e
          ∧ select w s = ([], with_history s, Raised e))
  ∨ (∃ client,
       get_chroma_client "./chroma_db" = Ok client
       ∧ select w s =
           ([], {| messages := Some [];
                   agent_deps := Some {| chroma_client := client;
                                         collection_name := selected_collection_name w;
                                         embedding_model := "all-MiniLM-L6-v2";
                                         n_results := n_results_to_retrieve w |} |},
            Rerun)).
Proof.
  destruct (agent_deps s) as [d|] eqn:Hd.
  - destruct (decide (collection_name d = selected_collection_name w)) as [Hc|Hc];
      [destruct (decide (n_results d = n_results_to_retrieve w)) as [Hn|Hn]|].
    + left. exists d. split; [done|]. split; [done|]. split; [done|].
      rewrite (select_keep get_chroma_client w s d Hd Hc Hn).
      unfold with_history. by rewrite Hd.
    + destruct (get_chroma_client "./chroma_db") as [client|e] eqn:Hg.
      * right. right. exists client. split; [done|].
        apply (select_reset get_chroma_client w s d client Hd Hg). by right.
      * right. left. exists e. split; [done|].
        unfold StreamlitApp.select, get_agent_deps, with_history, history.
        rewrite Hg. destruct s as [[h|] deps]; simpl in Hd; subst deps; run_script.
        all: rewrite !bool_decide_decide.
        all: repeat (case_decide; simplify_eq/=); done.
    + destruct (get_chroma_client "./chroma_db") as [client|e] eqn:Hg.
      * right. right. exists client. split; [done|].
        apply (select_reset get_chroma_client w s d client Hd Hg). by left.
      * right. left. exists e. split; [done|].
        unfold StreamlitApp.select, get_agent_deps, with_history, history.
        rewrite Hg. destruct s as [[h|] deps]; simpl in Hd; subst deps; run_script.
        all: rewrite !bool_decide_decide.
        all: repeat (case_decide; simplify_eq/=); done.
  - unfold StreamlitApp.select, get_agent_deps, with_history, history.
    destruct (get_chroma_client "./chroma_db") as [client|e] eqn:Hg.
    + right. right. exists client. split; [done|].
      destruct s as [[h|] deps]; simpl in Hd; subst deps; by run_script.
    + right. left. exists e. split; [done|].
      destruct s as [[h|] deps]; simpl in Hd; subst deps; by run_script.
Qed.


(** The block that displays the sources always ends normally and leaves the
    session alone. *)
Lemma display_sources_total user_input n s :
  ending (display_sources user_input n s) = Done tt
  ∧ session (display_sources user_input n s) = s.
Proof.
  unfold StreamlitApp.display_sources, StreamlitApp.display_sources_body.
  destruct s as [msgs [d|]]; run_script; [|done].
  destruct (get_or_create_collection _ _ _) as [col|e1]; run_script; [|done].
  destruct (query_collection col user_input n) as [qr|e2]; run_script; [|done].
  destruct (index0 _) as [metadatas|e3]; run_script; [|done].
  case_bool_decide; run_script; done.
Qed.

(** The streaming part ends normally or with an exception, never with a
    control request. *)
Lemma stream_answer_ending user_input n t s :
  ending (stream_answer user_input n t s) ≠ Rerun
  ∧ ending (stream_answer user_input n t s) ≠ Stop.
Proof.
  unfold StreamlitApp.stream_answer, run_agent_with_streaming.
  destruct s as [[h|] [d|]]; run_script; try done.
  destruct (run_stream user_input d h n t) as [r|e]; run_script; [|done].
  destruct (stream_failure r) as [e|]; run_script; done.
Qed.

Lemma turn_ending w s :
  ending (turn w s) ≠ Rerun ∧ ending (turn w s) ≠ Stop.
Proof.
  unfold StreamlitApp.turn. destruct (user_input w) as [text|]; [|done].
  case_bool_decide; [done|].
  destruct (stream_answer_ending text (n_results_to_retrieve w)
              (selected_temperature w) s) as [H1 H2].
  unfold mbind, U_bind, u_bind, draw, ending in *. cbn.
  destruct (stream_answer _ _ _ s) as [[o s'] [full| e | |]]; cbn in *; try done.
  destruct (display_sources_total text (n_results_to_retrieve w) s') as [Hd _].
  unfold ending in Hd.
  destruct (display_sources _ _ s') as [[o' s''] r]; cbn in *. by subst r.
Qed.

(** [main] never stops the script, and a rerun request can only come from
    [select]. *)
Lemma main_ending w s :
  ending (main w s) ≠ Stop
  ∧ (ending (main w s) = Rerun →
     ending (select w s) = Rerun ∧ session (main w s) = session (select w s)).
Proof.
  unfold StreamlitApp.main, mbind, U_bind, u_bind, draw. cbn.
  destruct (select_cases w s) as [(d & Hd & Hc & Hn & Hs)|[(e & _ & Hs)|(c & _ & Hs)]];
    rewrite Hs; cbn; [|done..].
  unfold display_history, attr_messages, with_history.
  run_script.
  destruct (turn_ending w {| messages := Some (history s); agent_deps := agent_deps s |})
    as [H1 H2].
  unfold ending in H1, H2.
  destruct (turn w _) as [[o s'] r]; cbn in *. split; [done|]. by intros ?.
Qed.

(** X4. The script stops exactly when its guard fails: the store does not
    open, its collections cannot be listed, or it has none.  It then shows one
    error and leaves the session as it was. *)
Theorem script_stops_iff_guard_fails w s :
  (ending (script w s) = Stop
   ↔ match get_chroma_client "./chroma_db" with
     | Ok client =>
         match list_collections client with Ok (_ :: _) => False | _ => True end
     | Raise _ => True
     end)
  ∧ (ending (script w s) = Stop →
     session (script w s) = s ∧ ∃ text, page (script w s) = [UiError text]).
Proof.
  unfold StreamlitApp.script. change DB_DIR with "./chroma_db".
  destruct (get_chroma_client "./chroma_db") as [client|e].
  2: { split; [done|]. intros _. split; [done|]. by eexists. }
  destruct (list_collections client) as [[|name names]|e].
  - split; [done|]. intros _. split; [done|]. by eexists.
  - destruct (main_ending w s) as [Hns _]. split; [|done].
    split; [done|]. intros [].
  - split; [done|]. intros _. split; [done|]. by eexists.
Qed.

(** X5. A rerun settles: when a run without user input ends with a rerun
    request, the next run with the same widgets draws the title and an empty
    chat, keeps the session, and ends normally. *)
Theorem rerun_settles w s :
  user_input w = None →
  ending (script w s) = Rerun →
  script w (session (script w s))
  = ([UiTitle "ChromaDB Crawl4AI RAG AI Agent"], session (script w s), Done tt).
Proof.
  intros Hin. unfold StreamlitApp.script. change DB_DIR with "./chroma_db".
  destruct (get_chroma_client "./chroma_db") as [client|e] eqn:Hg; [|done].
  destruct (list_collections client) as [[|name names]|e]; [done| |done].
  intros Hre. destruct (main_ending w s) as [_ Hsel].
  destruct (Hsel Hre) as [Hsr Hss]. rewrite Hss. clear Hsel Hss Hre.
  destruct (select_cases w s) as [(d & Hd & Hc & Hn & Hs)|[(e & _ & Hs)|(c & Hc & Hs)]];
    rewrite Hs in Hsr |- *; [done..|]. clear Hsr Hs.
  unfold session. cbn [fst snd].
  unfold StreamlitApp.main, mbind, U_bind, u_bind, draw.
  rewrite (select_keep get_chroma_client w
             {| messages := Some [];
                agent_deps := Some {| chroma_client := c;
                                      collection_name := selected_collection_name w;
                                      embedding_model := "all-MiniLM-L6-v2";
                                      n_results := n_results_to_retrieve w |} |}
             _ eq_refl eq_refl eq_refl).
  unfold display_history, StreamlitApp.turn. rewrite Hin. by run_script.
Qed.

(** X6. A stream that fails commits nothing: whether [agent.run_stream]
    raises at once or the stream breaks after some deltas, the turn ends with
    that exception, the session is the one before the turn, the deltas received
    so far stay on the page, and the sources are not looked up. *)
Theorem failed_stream_commits_nothing w s text d h e :
  user_input w = Some text →
  text ≠ "" →
  agent_deps s = Some d →
  messages s = Some h →
  run_stream text d h (n_results_to_retrieve w) (selected_temperature w) = Raise e
  ∨ (∃ r, run_stream text d h (n_results_to_retrieve w) (selected_temperature w)
          = Ok r ∧ stream_failure r = Some e) →
  turn w s
  = (UiChatUser text
       :: placeholder_updates ""
            (match run_stream text d h (n_results_to_retrieve w)
                     (selected_temperature w) with
             | Ok r => stream_text r
             | Raise _ => []
             end),
     s, Raised e).
Proof.
  intros Hw Hne Hd Hh Hrun. unfold StreamlitApp.turn. rewrite Hw.
  rewrite bool_decide_false by done.
  unfold StreamlitApp.stream_answer, run_agent_with_streaming.
  destruct s as [msgs deps]. simpl in Hd, Hh. subst msgs deps.
  destruct Hrun as [Hrun|(r & Hrun & Hfail)]; run_script; rewrite Hrun; run_script.
  - done.
  - rewrite Hfail. run_script. by rewrite app_nil_r.
Qed.

End Facts.

(** X7. The history is displayed as chat messages only: every user prompt
    and every assistant text of the history is drawn, and nothing else is;
    system prompts, tool calls, tool returns and retry prompts are not shown. *)
Theorem history_shows_prompts_and_texts_only s h :
  messages s = Some h →
  Forall (λ ev, Is_true (is_chat ev)) (page (display_history s))
  ∧ (∀ c, UiChatUser c ∈ page (display_history s)
          ↔ ∃ msg, msg ∈ h ∧ UserPromptPart c ∈ parts msg)
  ∧ (∀ c, UiChatAssistant c ∈ page (display_history s)
          ↔ ∃ msg, msg ∈ h ∧ TextPart c ∈ parts msg)
  ∧ session (display_history s) = s
  ∧ ending (display_history s) = Done tt.
Proof.
  intros Hh. unfold display_history. destruct s as [msgs deps]. simpl in Hh.
  subst msgs. run_script.
  assert (Hin : ∀ ev, ev ∈ flat_map (λ msg, flat_map display_message_part (parts msg)) h
                ↔ ∃ msg p, msg ∈ h ∧ p ∈ parts msg ∧ ev ∈ display_message_part p).
  { intros ev. rewrite list_elem_of_In, in_flat_map. split.
    - intros (msg & Hmsg & Hev). apply in_flat_map in Hev as (p & Hp & Hev).
      exists msg, p. by rewrite !list_elem_of_In.
    - intros (msg & p & Hmsg & Hp & Hev). exists msg.
      rewrite <- list_elem_of_In. split; [done|]. apply in_flat_map. exists p.
      by rewrite <- !list_elem_of_In. }
  split; [|split; [|split; [|done]]].
  - apply Forall_forall. intros ev (msg & p & _ & _ & Hev)%Hin.
    destruct p; cbn in Hev;
      first [by apply elem_of_nil in Hev
            | by apply list_elem_of_singleton in Hev as ->].
  - intros c. rewrite Hin. split.
    + intros (msg & p & Hmsg & Hp & Hev). exists msg. split; [done|].
      destruct p; cbn in Hev;
        first [by apply elem_of_nil in Hev
              | apply list_elem_of_singleton in Hev; by simplify_eq].
    + intros (msg & Hmsg & Hp). exists msg, (UserPromptPart c).
      split; [done|]. split; [done|]. cbn. by apply list_elem_of_singleton.
  - intros c. rewrite Hin. split.
    + intros (msg & p & Hmsg & Hp & Hev). exists msg. split; [done|].
      destruct p; cbn in Hev;
        first [by apply elem_of_nil in Hev
              | apply list_elem_of_singleton in Hev; by simplify_eq].
    + intros (msg & Hmsg & Hp). exists msg, (TextPart c).
      split; [done|]. split; [done|]. cbn. by apply list_elem_of_singleton.
Qed.

(** X8. While the answer streams, the placeholder shows after each delta the
    text received so far, followed by the cursor. *)
Theorem placeholder_shows_text_so_far full_response deltas i :
  (i < length deltas)%nat →
  placeholder_updates full_response deltas !! i
  = Some (UiPlaceholder
            ((full_response +:+ foldr String.append "" (take (S i) deltas))
             +:+ cursor)).
Proof.
  revert full_response i.
  induction deltas as [|d deltas IH]; intros acc i Hi; [cbn in Hi; lia|].
  cbn [placeholder_updates]. destruct i as [|i].
  - cbn [lookup list_lookup take foldr]. rewrite take_0. cbn [foldr].
    by rewrite append_empty_r.
  - rewrite lookup_cons. cbn [length] in Hi. rewrite IH by lia.
    cbn [take foldr]. by rewrite (append_assoc acc d).
Qed.

(** Results without a usable source give no source to show. *)
Lemma source_urls_of_nil metadatas :
  (∀ m, Some m ∈ metadatas → m !! "source" = None ∨ m !! "source" = Some "") →
  source_urls_of metadatas = [].
Proof.
  intros Hno. apply elem_of_nil_inv. intros x.
  rewrite elem_of_source_urls_of. intros (Hne & m & Hin & Hsrc).
  destruct (Hno m Hin) as [H|H]; rewrite H in Hsrc; [done|]. by simplify_eq.
Qed.

Section Sources.

Variable get_or_create_collection :
  PersistentClient → string → string → result Collection.
Variable query_collection : Collection → string → Z → result QueryResults.

Local Abbreviation display_sources :=
  (display_sources get_or_create_collection query_collection).

(** X9. When the re-query succeeds, the block draws nothing, and no error,
    if no result names a non-empty source or if the results have no
    "metadatas" key; results whose "metadatas" list is empty end in the inline
    error of an [IndexError]. *)
Theorem display_sources_without_sources user_input n s d col qr :
  agent_deps s = Some d →
  get_or_create_collection (chroma_client d) (collection_name d) (embedding_model d)
    = Ok col →
  query_collection col user_input n = Ok qr →
  (∀ metadatas,
     index0 (get_or_default (qr_metadatas qr)) = Ok metadatas →
     (∀ m, Some m ∈ metadatas → m !! "source" = None ∨ m !! "source" = Some "") →
     display_sources user_input n s = ([], s, Done tt))
  ∧ (qr_metadatas qr = None → display_sources user_input n s = ([], s, Done tt))
  ∧ (qr_metadatas qr = Some [] →
     display_sources user_input n s
     = ([UiError "Error retrieving sources: list index out of range"], s, Done tt)).
Proof.
  intros Hd Hcol Hq.
  assert (Hrun : ∀ r,
    index0 (get_or_default (qr_metadatas qr)) = r →
    display_sources user_input n s
    = match r with
      | Ok metadatas =>
          if bool_decide (source_urls_of metadatas = []) then ([], s, Done tt)
          else ([UiExpander "Retrieved Sources"
                   ((λ url, "- " +:+ url) <$> source_urls_of metadatas)],
                s, Done tt)
      | Raise e => ([UiError ("Error retrieving sources: " +:+ exn_str e)], s, Done tt)
      end).
  { intros r Hr. unfold StreamlitApp.display_sources, StreamlitApp.display_sources_body.
    destruct s as [msgs deps]. simpl in Hd. subst deps. run_script.
    rewrite Hcol. run_script. rewrite Hq. run_script. rewrite Hr.
    destruct r as [metadatas|e]; run_script; [|done].
    case_bool_decide; by run_script. }
  split; [|split].
  - intros metadatas Hm Hno. rewrite (Hrun _ Hm).
    by rewrite (source_urls_of_nil _ Hno).
  - intros Hnone. rewrite (Hrun (Ok []) ltac:(by rewrite Hnone)). done.
  - intros Hnil. by rewrite (Hrun (Raise (IndexError "list index out of range"))
                               ltac:(by rewrite Hnil)).
Qed.

End Sources.

Import Samples MoreSamples.


Lemma script_stops_iff_guard_fails_witness :
  session (script closed_get_chroma_client sample_get_or_create_collection
             sample_query_collection sample_list_collections sample_run_stream
             sample_widgets sample_session) = sample_session
  ∧ ∃ text,
      page (script closed_get_chroma_client sample_get_or_create_collection
              sample_query_collection sample_list_collections sample_run_stream
              sample_widgets sample_session) = [UiError text].
Proof.
  apply (proj2 (script_stops_iff_guard_fails closed_get_chroma_client
                  sample_get_or_create_collection sample_query_collection
                  sample_list_collections sample_run_stream sample_widgets
                  sample_session)).
  reflexivity.
Defined.

Lemma rerun_settles_witness :
  script sample_get_chroma_client sample_get_or_create_collection
    sample_query_collection sample_list_collections sample_run_stream blog_widgets
    (session (script sample_get_chroma_client sample_get_or_create_collection
                sample_query_collection sample_list_collections sample_run_stream
                blog_widgets sample_session))
  = ([UiTitle "ChromaDB Crawl4AI RAG AI Agent"],
     session (script sample_get_chroma_client sample_get_or_create_collection
                sample_query_collection sample_list_collections sample_run_stream
                blog_widgets sample_session),
     Done tt).
Proof.
  apply (rerun_settles sample_get_chroma_client sample_get_or_create_collection
           sample_query_collection sample_list_collections sample_run_stream
           blog_widgets sample_session); reflexivity.
Defined.

Lemma failed_stream_commits_nothing_witness :
  turn sample_get_or_create_collection sample_query_collection broken_run_stream
    sample_widgets sample_session
  = (UiChatUser "How do I install it?"
       :: placeholder_updates ""
            (match broken_run_stream "How do I install it?" sample_deps
                     (history sample_session)
                     (n_results_to_retrieve sample_widgets)
                     (selected_temperature sample_widgets) with
             | Ok r => stream_text r
             | Raise _ => []
             end),
     sample_session, Raised (AgentUnavailable "connection lost")).
Proof.
  apply (failed_stream_commits_nothing sample_get_or_create_collection
           sample_query_collection broken_run_stream sample_widgets sample_session
           "How do I install it?" sample_deps (history sample_session)
           (AgentUnavailable "connection lost")).
  - reflexivity.
  - discriminate.
  - reflexivity.
  - reflexivity.
  - right. eexists. split; reflexivity.
Defined.

Lemma history_shows_prompts_and_texts_only_witness :
  Forall (λ ev, Is_true (is_chat ev)) (page (display_history tool_session))
  ∧ (∀ c, UiChatUser c ∈ page (display_history tool_session)
          ↔ ∃ msg, msg ∈ tool_history ∧ UserPromptPart c ∈ parts msg)
  ∧ (∀ c, UiChatAssistant c ∈ page (display_history tool_session)
          ↔ ∃ msg, msg ∈ tool_history ∧ TextPart c ∈ parts msg)
  ∧ session (display_history tool_session) = tool_session
  ∧ ending (display_history tool_session) = Done tt.
Proof.
  apply (history_shows_prompts_and_texts_only tool_session tool_history).
  reflexivity.
Defined.

(** The page for a history with a tool round in it. *)
Example tool_history_page :
  page (display_history tool_session) = [UiChatUser "hello"; UiChatAssistant "Hi."].
Proof. reflexivity. Qed.

Lemma placeholder_shows_text_so_far_witness :
  placeholder_updates "" ["Install "; "it"; "."] !! 1%nat
  = Some (UiPlaceholder
            (("" +:+ foldr String.append "" (take 2 ["Install "; "it"; "."]))
             +:+ cursor)).
Proof.
  apply (placeholder_shows_text_so_far "" ["Install "; "it"; "."] 1).
  cbn. lia.
Defined.

Lemma display_sources_without_sources_witness :
  display_sources sample_get_or_create_collection sourceless_query_collection
    "How do I install it?" 5 sample_session = ([], sample_session, Done tt)
  ∧ display_sources sample_get_or_create_collection bare_query_collection
      "How do I install it?" 5 sample_session = ([], sample_session, Done tt)
  ∧ display_sources sample_get_or_create_collection hollow_query_collection
      "How do I install it?" 5 sample_session
    = ([UiError "Error retrieving sources: list index out of range"],
       sample_session, Done tt).
Proof.
  split; [|split].
  - apply (proj1 (display_sources_without_sources sample_get_or_create_collection
                    sourceless_query_collection "How do I install it?" 5
                    sample_session sample_deps
                    {| col_client := {| client_path := "./chroma_db" |};
                       col_name := "docs";
                       col_embedding_model := "all-MiniLM-L6-v2" |}
                    sourceless_query_results eq_refl eq_refl eq_refl)
             [Some meta_plain; None] eq_refl).
    intros m Hm. apply elem_of_cons in Hm as [Hm|Hm].
    + injection Hm as ->. by left.
    + apply list_elem_of_singleton in Hm. discriminate Hm.
  - apply (proj1 (proj2 (display_sources_without_sources
                           sample_get_or_create_collection bare_query_collection
                           "How do I install it?" 5 sample_session sample_deps
                           {| col_client := {| client_path := "./chroma_db" |};
                              col_name := "docs";
                              col_embedding_model := "all-MiniLM-L6-v2" |}
                           bare_query_results eq_refl eq_refl eq_refl))).
    reflexivity.
  - apply (proj2 (proj2 (display_sources_without_sources
                           sample_get_or_create_collection hollow_query_collection
                           "How do I install it?" 5 sample_session sample_deps
                           {| col_client := {| client_path := "./chroma_db" |};
                              col_name := "docs";
                              col_embedding_model := "all-MiniLM-L6-v2" |}
                           hollow_query_results eq_refl eq_refl eq_refl))).
    reflexivity.
Defined.

End StreamlitMore.


(** ** The CSV export as a whole *)

Module CsvExportMore.
Import CsvExport CsvExportCli CsvExportFacts Views.

(** X10. When the collection has items and the file can be written, the file
    holds one header row and one row per id; the header is "id", "document"
    and then the metadata keys, sorted, each once, and they are exactly the
    keys that occur in some item's metadata. *)
Theorem export_header_is_sorted_key_union r before :
  g_ids r ≠ [] →
  ∃ keys rows,
    export_collection_to_csv (Ok r) before true
      = Some (("id" :: "document" :: keys) :: rows)
    ∧ length rows = length (g_ids r)
    ∧ Sorted String.le keys
    ∧ NoDup keys
    ∧ ∀ k, k ∈ keys ↔ ∃ m, Some m ∈ g_metadatas r ∧ is_Some (m !! k).
Proof.
  intros Hids. destruct (export_header r before Hids) as (rows & Hexp & Hlen).
  exists (sorted_meta_keys (g_metadatas r)), rows.
  split; [done|]. split; [done|]. split; [apply sorted_meta_keys_Sorted|].
  split; [apply sorted_meta_keys_NoDup|]. apply elem_of_sorted_meta_keys.
Qed.

Lemma export_written r before :
  g_ids r ≠ [] →
  export_collection_to_csv (Ok r) before true
  = Some (header (g_metadatas r) :: data_rows r).
Proof.
  intros Hids. unfold export_collection_to_csv. cbv zeta.
  cbn [default fmap option_fmap option_map].
  by destruct (g_ids r).
Qed.

(** X11. When no metadata key is named "id" or "document", the row written
    for an item holds its id, its document (nothing when it has none), and
    under every metadata column the item's value for that key (nothing when
    the item lacks the key or has no metadata). *)
Theorem export_row_holds_item r before i id :
  g_ids r !! i = Some id →
  (∀ m, Some m ∈ g_metadatas r → m !! "id" = None ∧ m !! "document" = None) →
  ∃ hdr rows,
    export_collection_to_csv (Ok r) before true = Some (hdr :: rows)
    ∧ rows !! i
      = Some (id :: default "" (mjoin (g_documents r !! i))
              :: ((λ k, default "" (default ∅ (mjoin (g_metadatas r !! i)) !! k))
                    <$> drop 2 hdr)).
Proof.
  intros Hid Hno.
  assert (Hids : g_ids r ≠ []) by (intros E; by rewrite E in Hid).
  exists (header (g_metadatas r)), (data_rows r).
  split; [by apply export_written|].
  rewrite header_eq. cbn [drop]. apply data_row_without_clash; [done|..].
  - rewrite elem_of_all_meta_keys. intros (m & Hm & [v Hv]).
    destruct (Hno m Hm) as [H _]. by rewrite H in Hv.
  - rewrite elem_of_all_meta_keys. intros (m & Hm & [v Hv]).
    destruct (Hno m Hm) as [_ H]. by rewrite H in Hv.
Qed.

Lemma length_writerow fieldnames (row : Row) :
  length (writerow fieldnames row) = length fieldnames.
Proof. unfold writerow. apply length_fmap. Qed.

(** X12. The file written for a collection with items is rectangular: every
    row has as many cells as the header, whatever the metadata. *)
Theorem export_is_rectangular r before hdr rows :
  g_ids r ≠ [] →
  export_collection_to_csv (Ok r) before true = Some (hdr :: rows) →
  Forall (λ row, length row = length hdr) rows.
Proof.
  intros Hids. rewrite (export_written r before Hids). intros [= <- <-].
  apply Forall_forall. intros row Hrow.
  apply list_elem_of_lookup in Hrow as [i Hi]. unfold data_rows in Hi.
  rewrite list_lookup_imap in Hi.
  destruct (g_ids r !! i) as [id|]; [|done].
  cbn [fmap option_fmap option_map] in Hi.
  assert (row = writerow (header (g_metadatas r)) (row_dict r i id)) as ->
    by congruence.
  apply length_writerow.
Qed.

(** X13. When nothing was retrieved, because the collection is empty or
    because [collection.get] raised, an output file that already has content is
    left as it is; a missing or empty one is given the fixed seven-column
    header and no row. *)
Theorem empty_export_keeps_existing_file fetched before writable :
  (∀ r, fetched = Ok r → g_ids r = []) →
  (∀ row rows, before = Some (row :: rows) →
     export_collection_to_csv fetched before writable = before)
  ∧ (before = None ∨ before = Some [] →
     export_collection_to_csv fetched before true = Some [header_for_empty]
     ∧ export_collection_to_csv fetched before false = before).
Proof.
  intros Hempty.
  assert (Hexp : ∀ w, export_collection_to_csv fetched before w
                 = if bool_decide (before = None) || bool_decide (before = Some [])
                   then (if w then Some [header_for_empty] else before) else before).
  { intros w. unfold export_collection_to_csv. destruct fetched as [r|e]; [|done].
    cbv zeta. cbn [default fmap option_fmap option_map].
    by rewrite (Hempty r eq_refl). }
  split.
  - intros row rows ->. by rewrite Hexp.
  - intros [-> | ->]; by rewrite !Hexp.
Qed.

(** X18. The header names every column once exactly when no item's metadata
    has a key named "id" or "document"; otherwise a fixed column is repeated. *)
Theorem header_has_no_duplicate_iff_no_clash metadatas :
  NoDup (header metadatas)
  ↔ ∀ m, Some m ∈ metadatas → m !! "id" = None ∧ m !! "document" = None.
Proof.
  rewrite header_eq, !NoDup_cons, !elem_of_cons, !elem_of_sorted_meta_keys.
  split.
  - intros (Hid & Hdoc & _) m Hm. split.
    + destruct (m !! "id") as [v|] eqn:E; [|done]. destruct Hid. right.
      exists m. by rewrite E.
    + destruct (m !! "document") as [v|] eqn:E; [|done]. destruct Hdoc.
      exists m. by rewrite E.
  - intros Hno. split; [|split; [|apply sorted_meta_keys_NoDup]].
    + intros [?|(m & Hm & [v Hv])]; [done|].
      destruct (Hno m Hm) as [H _]. by rewrite H in Hv.
    + intros (m & Hm & [v Hv]). destruct (Hno m Hm) as [_ H]. by rewrite H in Hv.
Qed.

Lemma find_exact_Some target cols col :
  find_exact target cols = Some col →
  co_name col = target
  ∧ ∃ i, cols !! i = Some col
         ∧ ∀ j c, (j < i)%nat → cols !! j = Some c → co_name c ≠ target.
Proof.
  induction cols as [|c cols IH]; [done|]. cbn [find_exact].
  destruct (decide (co_name c = target)) as [Heq|Hne].
  - intros [= <-]. split; [done|]. exists 0%nat. split; [done|]. intros; lia.
  - intros H. destruct (IH H) as (Hn & i & Hi & Hfirst). split; [done|].
    exists (S i). split; [done|]. intros [|j] c' Hj Hc'.
    + by injection Hc' as <-.
    + apply (Hfirst j); [lia|done].
Qed.

Lemma find_exact_None target cols :
  find_exact target cols = None ↔ ∀ c, c ∈ cols → co_name c ≠ target.
Proof.
  induction cols as [|c cols IH]; cbn [find_exact].
  - split; [|done]. intros _ c Hc. by apply elem_of_nil in Hc.
  - destruct (decide (co_name c = target)) as [Heq|Hne].
    + split; [done|]. intros H. destruct (H c); [apply elem_of_cons; by left|done].
    + rewrite IH. split.
      * intros H c' [->|Hc']%elem_of_cons; [done|by apply H].
      * intros H c' Hc'. apply H, elem_of_cons. by right.
Qed.

Section Facts.

Variable persistent_client : string → result PersistentClient.
Variable list_collections : PersistentClient → result (list CollectionObj).
Variable count : CollectionObj → result Z.
Variable get : CollectionObj → result GetResults.

Local Abbreviation export_collection :=
  (export_collection persistent_client list_collections count get).

(** X14. When the export returns, it has exported the first listed
    collection whose name is exactly the target name: that collection could be
    counted, and the file is what the export of its items gives. *)
Theorem export_returns_for_exact_name db_dir target before writable file :
  export_collection db_dir target before writable = (file, Returned tt) →
  ∃ client cols col i,
    persistent_client db_dir = Ok client
    ∧ list_collections client = Ok cols
    ∧ cols !! i = Some col
    ∧ co_name col = target
    ∧ (∀ j c, (j < i)%nat → cols !! j = Some c → co_name c ≠ target)
    ∧ is_Some (ok_value (count col))
    ∧ file = export_collection_to_csv (get col) before writable.
Proof.
  unfold CsvExportCli.export_collection, locate_collection.
  destruct (persistent_client db_dir) as [client|e]; [|done].
  destruct (list_collections client) as [[|c cs]|e] eqn:Hl; [done| |done].
  destruct (find_exact target (c :: cs)) as [col|] eqn:Hf; [|done].
  destruct (count col) as [n|e] eqn:Hc; [|done]. intros [= <-].
  destruct (find_exact_Some _ _ _ Hf) as (Hn & i & Hi & Hfirst).
  exists client, (c :: cs), col, i. rewrite Hc. by repeat split.
Qed.

(** X15. When no listed collection has exactly the target name, the export
    ends the process with exit code 1 and leaves the output file as it was. *)
Theorem export_exits_without_exact_name db_dir target before writable client cols :
  persistent_client db_dir = Ok client →
  list_collections client = Ok cols →
  (∀ c, c ∈ cols → co_name c ≠ target) →
  export_collection db_dir target before writable = (before, SysExit 1).
Proof.
  intros Hp Hl Hno. unfold CsvExportCli.export_collection, locate_collection.
  rewrite Hp, Hl. destruct cols as [|c cs]; [done|].
  by rewrite (proj2 (find_exact_None target (c :: cs)) Hno).
Qed.

End Facts.

Import Samples MoreSamples.

Lemma export_header_is_sorted_key_union_witness :
  ∃ keys rows,
    export_collection_to_csv (Ok plain_results) (Some old_csv) true
      = Some (("id" :: "document" :: keys) :: rows)
    ∧ length rows = length (g_ids plain_results)
    ∧ Sorted String.le keys
    ∧ NoDup keys
    ∧ ∀ k, k ∈ keys ↔ ∃ m, Some m ∈ g_metadatas plain_results ∧ is_Some (m !! k).
Proof.
  apply (export_header_is_sorted_key_union plain_results (Some old_csv)).
  discriminate.
Defined.

Lemma export_row_holds_item_witness :
  ∃ hdr rows,
    export_collection_to_csv (Ok plain_results) None true = Some (hdr :: rows)
    ∧ rows !! 2%nat
      = Some ("c3" :: default "" (mjoin (g_documents plain_results !! 2%nat))
              :: ((λ k, default ""
                          (default ∅ (mjoin (g_metadatas plain_results !! 2%nat)) !! k))
                    <$> drop 2 hdr)).
Proof.
  apply (export_row_holds_item plain_results None 2 "c3"); [reflexivity|].
  intros m Hm. apply elem_of_cons in Hm as [Hm|Hm].
  { injection Hm as ->. split; reflexivity. }
  apply elem_of_cons in Hm as [Hm|Hm].
  { injection Hm as ->. split; reflexivity. }
  apply list_elem_of_singleton in Hm. discriminate Hm.
Defined.

Lemma export_is_rectangular_witness :
  Forall (λ row, length row = length ["id"; "document"; "document"])
    [["a"; "x"; "x"]; ["b"; "d2"; "d2"]].
Proof.
  apply (export_is_rectangular clash_results None); [discriminate|].
  vm_compute. reflexivity.
Defined.

Lemma empty_export_keeps_existing_file_witness :
  (export_collection_to_csv (Raise (QueryFailure "corrupt index")) (Some old_csv) true
   = Some old_csv)
  ∧ (export_collection_to_csv
       (Ok {| g_ids := []; g_documents := []; g_metadatas := [] |}) None true
     = Some [header_for_empty]
     ∧ export_collection_to_csv
         (Ok {| g_ids := []; g_documents := []; g_metadatas := [] |}) None false
       = None).
Proof.
  split.
  - apply (proj1 (empty_export_keeps_existing_file
                    (Raise (QueryFailure "corrupt index")) (Some old_csv) true
                    ltac:(discriminate))
             ["id"; "document"] [["z"; "kept"]]).
    reflexivity.
  - apply (proj2 (empty_export_keeps_existing_file
                    (Ok {| g_ids := []; g_documents := []; g_metadatas := [] |})
                    None true ltac:(by intros r [= <-]))).
    by left.
Defined.

Lemma export_returns_for_exact_name_witness :
  ∃ client cols col i,
    store_client "./chroma_db" = Ok client
    ∧ store_list client = Ok cols
    ∧ cols !! i = Some col
    ∧ co_name col = "docs"
    ∧ (∀ j c, (j < i)%nat → cols !! j = Some c → co_name c ≠ "docs")
    ∧ is_Some (ok_value (store_count col))
    ∧ Some [["id"; "document"; "chunk_index"; "source"];
            ["c1"; "Install it."; "0"; "https://docs.example/guide"];
            ["c2"; "Call the API."; "3"; "https://docs.example/api"];
            ["c3"; "Loose notes."; ""; ""]]
      = export_collection_to_csv (store_get col) (Some old_csv) true.
Proof.
  apply (export_returns_for_exact_name store_client store_list store_count store_get
           "./chroma_db" "docs" (Some old_csv) true).
  vm_compute. reflexivity.
Defined.

Lemma export_exits_without_exact_name_witness :
  export_collection store_client store_list store_count store_get
    "./chroma_db" "DOCS" (Some old_csv) true
  = (Some old_csv, SysExit 1).
Proof.
  apply (export_exits_without_exact_name store_client store_list store_count store_get
           "./chroma_db" "DOCS" (Some old_csv) true
           {| client_path := "./chroma_db" |} store_collections);
    [reflexivity..|].
  intros c Hc.
  apply elem_of_cons in Hc as [->|Hc]; [discriminate|].
  apply elem_of_cons in Hc as [->|Hc]; [discriminate|].
  apply list_elem_of_singleton in Hc as ->. discriminate.
Defined.

End CsvExportMore.


(** ** The listing of collections *)

Module ListCollectionsMore.
Import CsvExportCli ListCollections Views.

Section Facts.

Variable isdir : string → bool.
Variable persistent_client : string → result PersistentClient.
Variable list_collections : PersistentClient → result (list CollectionObj).
Variable get_collection : PersistentClient → string → result CollectionObj.
Variable count : CollectionObj → result Z.

Local Abbreviation count_of := (count_of get_collection count).
Local Abbreviation print_row := (print_row get_collection count).
Local Abbreviation list_collections_with_counts :=
  (list_collections_with_counts persistent_client list_collections get_collection
     count).
Local Abbreviation main :=
  (main isdir persistent_client list_collections get_collection count).

Lemma rows_of_print_rows client (cols : list CollectionObj) :
  omap row_of (flat_map (print_row client) cols)
  = (λ col, (co_name col, ok_value (count_of client (co_name col)))) <$> cols.
Proof.
  induction cols as [|col cols IH]; [done|].
  cbn [flat_map fmap list_fmap]. rewrite omap_app, IH. f_equal.
  unfold ListCollections.print_row.
  by destruct (count_of client (co_name col)).
Qed.

(** X16. When the store opens and has collections, the table has one row per
    collection, in the order listed: with its count where the collection could
    be fetched and counted, and with the error cell where it could not.  A
    collection that cannot be counted does not end the listing, which returns
    normally. *)
Theorem listing_has_one_row_per_collection db_dir client c cs :
  persistent_client db_dir = Ok client →
  list_collections client = Ok (c :: cs) →
  omap row_of (list_collections_with_counts db_dir).1
  = (λ col, (co_name col, ok_value (count_of client (co_name col)))) <$> (c :: cs)
  ∧ (list_collections_with_counts db_dir).2 = Returned tt.
Proof.
  intros Hp Hl. unfold ListCollections.list_collections_with_counts.
  rewrite Hp, Hl. cbn [fst snd]. split; [|done].
  rewrite !omap_app, rows_of_print_rows. cbn [omap list_omap row_of app].
  by rewrite app_nil_r.
Qed.

(** X17. [main] ends the process with exit code 1 exactly when the path is
    not a directory, the store does not open, or its collections cannot be
    listed; otherwise it returns, also for a store without collections.  A path
    that is not a directory is reported without any attempt to connect. *)
Theorem listing_exit_code db_dir :
  ((main db_dir).2 = SysExit 1
   ↔ isdir db_dir = false
     ∨ (∃ e, persistent_client db_dir = Raise e)
     ∨ (∃ client e, persistent_client db_dir = Ok client
                    ∧ list_collections client = Raise e))
  ∧ ((main db_dir).2 = SysExit 1 ∨ (main db_dir).2 = Returned tt)
  ∧ (isdir db_dir = false → (main db_dir).1 = [NotADirectory db_dir]).
Proof.
  unfold ListCollections.main, ListCollections.list_collections_with_counts.
  destruct (isdir db_dir).
  2: { split; [|split; [by left|done]]. split; [by left|done]. }
  destruct (persistent_client db_dir) as [client|e].
  2: { split; [|split; [by left|done]]. split; [|done]. intros _. right. left.
       by exists e. }
  destruct (list_collections client) as [[|c cs]|e] eqn:Hl; cbn [fst snd].
  - split; [|split; [by right|done]]. split; [done|].
    intros [H|[[e H]|(cl & e & [= <-] & H)]]; [done..|]. by rewrite Hl in H.
  - split; [|split; [by right|done]]. split; [done|].
    intros [H|[[e H]|(cl & e & [= <-] & H)]]; [done..|]. by rewrite Hl in H.
  - split; [|split; [by left|done]]. split; [|done]. intros _. right. right.
    by exists client, e.
Qed.

End Facts.

Import Samples MoreSamples.

Lemma listing_has_one_row_per_collection_witness :
  omap row_of
    (list_collections_with_counts store_client store_list store_get_collection
       store_count "./chroma_db").1
  = (λ col, (co_name col,
             ok_value (count_of store_get_collection store_count
                         {| client_path := "./chroma_db" |} (co_name col))))
    <$> store_collections
  ∧ (list_collections_with_counts store_client store_list store_get_collection
       store_count "./chroma_db").2 = Returned tt.
Proof.
  apply (listing_has_one_row_per_collection store_client store_list
           store_get_collection store_count "./chroma_db"
           {| client_path := "./chroma_db" |}); reflexivity.
Defined.

Lemma listing_exit_code_witness :
  (main store_isdir store_client store_list store_get_collection store_count
     "/tmp/notes.txt").1 = [NotADirectory "/tmp/notes.txt"].
Proof.
  apply (proj2 (proj2 (listing_exit_code store_isdir store_client store_list
                         store_get_collection store_count "/tmp/notes.txt"))).
  reflexivity.
Defined.

(** What is printed for the sample store. *)
Example sample_listing :
  (main store_isdir store_client store_list store_get_collection store_count
     "./chroma_db").1
  = [Connecting "./chroma_db"; Fetching; Found 3; Rule; TableHeader; Rule;
     TableRow "docs" 3;
     CouldNotCount "blog" (QueryFailure "corrupt index"); TableRowError "blog";
     TableRow "Docs" 3;
     Rule].
Proof. vm_compute. reflexivity. Qed.

End ListCollectionsMore.
